(** * github-webhook-server: the signature and dispositioning pipeline

    A shallow embedding of [src/server.ts].  The functions of the module
    ([getConfig], [validateConfig], [verifySignature], [isAllowedBranch],
    [executeDeployment], [handleWebhook], [createServer]) are translated one
    by one; what they get from Node and Express ([crypto.createHmac],
    [crypto.timingSafeEqual], [Buffer.from], [String.prototype.replace],
    [split], [includes], the JSON body middleware) is embedded next to them
    from the documented behaviour of those libraries. *)

From Stdlib Require Import ZArith Lia List String Ascii Bool.
From Stdlib.Strings Require Import Byte.
From stdpp Require Import gmap strings.
Import ListNotations.

Local Open Scope string_scope.
Local Open Scope list_scope.

(** ** Buffers and strings

    A [Buffer] is a list of bytes.  A JavaScript string is modelled by
    [string]: for header values these are the code units Node produces when it
    decodes the header bytes as latin1 (one character per byte), for
    everything else the UTF-8 bytes of the text. *)

Definition Buffer := list byte.

Definition Z_of_byte (b : byte) : Z := Z.of_N (Byte.to_N b).

Definition byte_of_Z (z : Z) : byte :=
  match Byte.of_N (Z.to_N (z mod 256)) with
  | Some b => b
  | None => x00
  end.

(** ** SHA-256 (FIPS 180-4) on 32-bit words held in [Z] *)

Module SHA256.
Local Open Scope Z_scope.

Definition wrap32 (x : Z) : Z := x mod 2 ^ 32.
Definition add32 (x y : Z) : Z := wrap32 (x + y).
Definition not32 (x : Z) : Z := Z.lxor x 0xffffffff.
Definition shr (n x : Z) : Z := Z.shiftr x n.
Definition rotr (n x : Z) : Z :=
  Z.lor (Z.shiftr x n) (wrap32 (Z.shiftl x (32 - n))).

Definition Ch (x y z : Z) : Z := Z.lxor (Z.land x y) (Z.land (not32 x) z).
Definition Maj (x y z : Z) : Z :=
  Z.lxor (Z.lxor (Z.land x y) (Z.land x z)) (Z.land y z).
Definition bsig0 (x : Z) : Z := Z.lxor (Z.lxor (rotr 2 x) (rotr 13 x)) (rotr 22 x).
Definition bsig1 (x : Z) : Z := Z.lxor (Z.lxor (rotr 6 x) (rotr 11 x)) (rotr 25 x).
Definition ssig0 (x : Z) : Z := Z.lxor (Z.lxor (rotr 7 x) (rotr 18 x)) (shr 3 x).
Definition ssig1 (x : Z) : Z := Z.lxor (Z.lxor (rotr 17 x) (rotr 19 x)) (shr 10 x).

(** The constants are given by their definition (FIPS 180-4, 4.2.2 and
    5.3.3): the first 32 bits of the fractional parts of the cube roots of the
    first 64 primes, and of the square roots of the first 8. *)
Definition is_prime (n : nat) : bool :=
  forallb (fun d => negb (Nat.eqb (Nat.modulo n d) 0)) (seq 2 (n - 2)).

Definition primes64 : list Z :=
  map Z.of_nat (firstn 64 (List.filter is_prime (seq 2 400))).

(** Integer cube root below [2 ^ bits], one bit at a time from the top. *)
Fixpoint icbrt (bits : nat) (n r : Z) : Z :=
  match bits with
  | O => r
  | S j =>
      let c := r + 2 ^ Z.of_nat j in
      icbrt j n (if c * c * c <=? n then c else r)
  end.

Definition frac_cbrt32 (p : Z) : Z := wrap32 (icbrt 40 (p * 2 ^ 96) 0).
Definition frac_sqrt32 (p : Z) : Z := wrap32 (Z.sqrt (p * 2 ^ 64)).

Definition K : list Z := Eval vm_compute in map frac_cbrt32 primes64.

(** The eight working variables, also the intermediate hash value. *)
Record state := State { sa : Z; sb : Z; sc : Z; sd : Z; se : Z; sf : Z; sg : Z; sh : Z }.

Definition state_of_words (ws : list Z) : state :=
  State (nth 0 ws 0) (nth 1 ws 0) (nth 2 ws 0) (nth 3 ws 0)
        (nth 4 ws 0) (nth 5 ws 0) (nth 6 ws 0) (nth 7 ws 0).

Definition H0 : state :=
  Eval vm_compute in state_of_words (map frac_sqrt32 (firstn 8 primes64)).

(** Padding: a 1 bit, zeros up to 56 mod 64 bytes, the bit length on 8 bytes. *)
Definition be_bytes (n : nat) (x : Z) : list Z :=
  map (fun i => (x / 2 ^ (8 * Z.of_nat i)) mod 256) (rev (seq 0 n)).

Definition pad (msg : list Z) : list Z :=
  let len := Z.of_nat (length msg) in
  msg ++ [0x80] ++ repeat 0 (Z.to_nat ((55 - len) mod 64)) ++ be_bytes 8 (8 * len).

Fixpoint words (fuel : nat) (bs : list Z) : list Z :=
  match fuel, bs with
  | S f, b3 :: b2 :: b1 :: b0 :: rest =>
      (((b3 * 256 + b2) * 256 + b1) * 256 + b0) :: words f rest
  | _, _ => []
  end.

Fixpoint blocks (fuel : nat) (bs : list Z) : list (list Z) :=
  match fuel, bs with
  | S f, _ :: _ => words 16 (firstn 64 bs) :: blocks f (skipn 64 bs)
  | _, _ => []
  end.

(** Message schedule: [w] grows from the 16 words of the block to 64. *)
Fixpoint schedule (n : nat) (w : list Z) : list Z :=
  match n with
  | O => w
  | S n' =>
      let t := length w in
      let at_ (k : nat) := nth (t - k) w 0 in
      schedule n'
        (w ++ [add32 (add32 (ssig1 (at_ 2%nat)) (at_ 7%nat))
                     (add32 (ssig0 (at_ 15%nat)) (at_ 16%nat))])
  end.

Definition round (s : state) (kw : Z * Z) : state :=
  let t1 := add32 (add32 (add32 (sh s) (bsig1 (se s)))
                         (add32 (Ch (se s) (sf s) (sg s)) (fst kw))) (snd kw) in
  let t2 := add32 (bsig0 (sa s)) (Maj (sa s) (sb s) (sc s)) in
  State (add32 t1 t2) (sa s) (sb s) (sc s) (add32 (sd s) t1) (se s) (sf s) (sg s).

Definition compress (h : state) (block : list Z) : state :=
  let s := fold_left round (combine K (schedule 48 block)) h in
  State (add32 (sa h) (sa s)) (add32 (sb h) (sb s)) (add32 (sc h) (sc s))
        (add32 (sd h) (sd s)) (add32 (se h) (se s)) (add32 (sf h) (sf s))
        (add32 (sg h) (sg s)) (add32 (sh h) (sh s)).

Definition state_words (s : state) : list Z :=
  [sa s; sb s; sc s; sd s; se s; sf s; sg s; sh s].

Definition word_bytes (w : Z) : Buffer :=
  [byte_of_Z (w / 2 ^ 24); byte_of_Z (w / 2 ^ 16); byte_of_Z (w / 2 ^ 8); byte_of_Z w].

Definition digest (msg : Buffer) : Buffer :=
  let padded := pad (map Z_of_byte msg) in
  let h := fold_left compress (blocks (length padded) padded) H0 in
  flat_map word_bytes (state_words h).
End SHA256.

(** ** HMAC (RFC 2104) over SHA-256, and the hex rendering of a digest *)

Definition xor_byte (c : Z) (b : byte) : byte := byte_of_Z (Z.lxor c (Z_of_byte b)).

Definition hmac_key_block (key : Buffer) : Buffer :=
  let k := if Nat.ltb 64 (length key) then SHA256.digest key else key in
  k ++ repeat x00 (64 - length k).

Definition hmac_sha256 (key msg : Buffer) : Buffer :=
  let k := hmac_key_block key in
  SHA256.digest (map (xor_byte 0x5c) k ++ SHA256.digest (map (xor_byte 0x36) k ++ msg)).

Definition hex_digit (n : Z) : ascii :=
  ascii_of_nat (Z.to_nat (if Z.ltb n 10 then 48 + n else 87 + n)).

Definition hex_of_byte (b : byte) : string :=
  String (hex_digit (Z_of_byte b / 16)) (String (hex_digit (Z_of_byte b mod 16)) "").

Fixpoint hex (buf : Buffer) : string :=
  match buf with
  | [] => ""
  | b :: rest => hex_of_byte b +:+ hex rest
  end.

(** [Buffer.from(s)] for the default encoding: the UTF-8 bytes of the text.
    On a string that already holds UTF-8 bytes this is the byte list. *)
Definition bytes_of (s : string) : Buffer := list_byte_of_string s.

(** [Buffer.from(s)] on a header value.  Node decodes header bytes as latin1,
    so every character is a code unit below 256; UTF-8 gives one byte to a
    code unit below 128 and two bytes to the others. *)
Definition utf8_unit (c : ascii) : Buffer :=
  let u := Z.of_nat (nat_of_ascii c) in
  if Z.ltb u 128 then [byte_of_ascii c]
  else [byte_of_Z (Z.lor 0xc0 (Z.shiftr u 6)); byte_of_Z (Z.lor 0x80 (Z.land u 0x3f))].

Fixpoint Buffer_from (s : string) : Buffer :=
  match s with
  | EmptyString => []
  | String c rest => utf8_unit c ++ Buffer_from rest
  end.

(** The way back, used to show that [Buffer_from] loses nothing. *)
Fixpoint utf8_decode (buf : Buffer) : string :=
  match buf with
  | [] => EmptyString
  | b :: rest =>
      if Z.ltb (Z_of_byte b) 128 then String (ascii_of_byte b) (utf8_decode rest)
      else match rest with
           | [] => EmptyString
           | b' :: rest' =>
               String (ascii_of_nat (Z.to_nat
                         (Z.lor (Z.shiftl (Z.land (Z_of_byte b) 0x1f) 6)
                                (Z.land (Z_of_byte b') 0x3f))))
                      (utf8_decode rest')
           end
  end.

(** ** The JavaScript string and array operations the module calls *)

Fixpoint string_drop (n : nat) (s : string) : string :=
  match n, s with
  | S n', String _ rest => string_drop n' rest
  | _, _ => s
  end.

(** [s.replace(pat, rep)] for a string pattern: the first occurrence only. *)
Fixpoint replace (pat rep s : string) : string :=
  if String.prefix pat s then rep +:+ string_drop (String.length pat) s
  else match s with
       | EmptyString => EmptyString
       | String c rest => String c (replace pat rep rest)
       end.

(** [s.split(',')]: never empty, the empty string gives one empty piece. *)
Fixpoint split (sep : ascii) (s : string) : list string :=
  match s with
  | EmptyString => [EmptyString]
  | String c rest =>
      if Ascii.eqb c sep then EmptyString :: split sep rest
      else match split sep rest with
           | [] => [String c EmptyString]
           | piece :: pieces => String c piece :: pieces
           end
  end.

(** [arr.includes(x)] on strings. *)
Definition includes (arr : list string) (x : string) : bool :=
  existsb (String.eqb x) arr.

(** [arr.join(sep)]. *)
Definition join (sep : string) (arr : list string) : string := String.concat sep arr.

(** Truthiness of a value of type [string | undefined]. *)
Definition truthy (v : option string) : bool :=
  match v with
  | Some (String _ _) => true
  | _ => false
  end.

(** A value of type [string | undefined] inside a template literal. *)
Definition interpolate (v : option string) : string :=
  match v with
  | Some s => s
  | None => "undefined"
  end.

(** ** Effects: what a run writes to the console, spawns and sends *)

Inductive level := LInfo | LWarn | LError.

Inductive event :=
| Console (lv : level) (line : string) (args : list string)
| TimingSafeEqual (a b : Buffer)
| Exec (command : string) (timeout : Z)
| Send (status : Z) (body : list (string * string)).

(** A thrown JavaScript error: its constructor name, its message and whether
    it carries a [body] property (the JSON middleware's parse errors do). *)
Record JsError := { ename : string; emessage : string; ehas_body : bool }.

Inductive completion (A : Type) :=
| Normal (a : A)
| Abrupt (e : JsError).
Arguments Normal {A} a.
Arguments Abrupt {A} e.

(** Computations: the events so far, and a value or a thrown error. *)
Definition M (A : Type) : Type := list event * completion A.

Definition ret {A} (a : A) : M A := ([], Normal a).
Definition throw {A} (e : JsError) : M A := ([], Abrupt e).
Definition emit (e : event) : M unit := ([e], Normal tt).

Definition bind {A B} (m : M A) (k : A -> M B) : M B :=
  match m with
  | (t, Normal a) => let '(t', r) := k a in (t ++ t', r)
  | (t, Abrupt e) => (t, Abrupt e)
  end.

Definition try_catch {A} (m : M A) (handler : JsError -> M A) : M A :=
  match m with
  | (t, Normal a) => (t, Normal a)
  | (t, Abrupt e) => let '(t', r) := handler e in (t ++ t', r)
  end.

Notation "x <- m ;; k" := (bind m (fun x => k))
  (at level 100, m at next level, right associativity).
Notation "m ;;; k" := (bind m (fun _ => k))
  (at level 100, right associativity).

Definition trace {A} (m : M A) : list event := fst m.
Definition outcome {A} (m : M A) : completion A := snd m.

(** A double quote, and a text between double quotes. *)
Definition dquote : string := String (ascii_of_nat 34) EmptyString.
Definition quoted (s : string) : string := dquote +:+ s +:+ dquote.

(** ** [node:crypto] *)

(** The [ERR_INVALID_ARG_TYPE] error of Node 22 (the version the repository's
    install script fetches) for a key that is [undefined]. *)
Definition invalidKeyError : JsError :=
  {| ename := "TypeError";
     emessage := "The " +:+ quoted "key" +:+ " argument must be of type string or an instance "
                 +:+ "of ArrayBuffer, Buffer, TypedArray, DataView, KeyObject, or CryptoKey. "
                 +:+ "Received undefined";
     ehas_body := false |}.

(** [crypto.createHmac('sha256', key)]: a key that is [undefined] is refused
    with a [TypeError]; [update] and [digest('hex')] follow. *)
Definition createHmac_hex (key : option string) (data : Buffer) : M string :=
  match key with
  | None => throw invalidKeyError
  | Some k => ret (hex (hmac_sha256 (bytes_of k) data))
  end.

(** The comparison itself: every byte pair is folded in, no early exit. *)
Definition memcmp_acc (acc : Z) (ab : byte * byte) : Z :=
  Z.lor acc (Z.lxor (Z_of_byte (fst ab)) (Z_of_byte (snd ab))).

Definition CRYPTO_memcmp (a b : Buffer) : Z := fold_left memcmp_acc (combine a b) 0%Z.

(** [crypto.timingSafeEqual(a, b)]: throws a [RangeError] when the byte
    lengths differ. *)
Definition timingSafeEqual (a b : Buffer) : M bool :=
  emit (TimingSafeEqual a b) ;;;
  if Nat.eqb (length a) (length b) then ret (Z.eqb (CRYPTO_memcmp a b) 0)
  else throw {| ename := "RangeError";
                emessage := "Input buffers must have the same byte length";
                ehas_body := false |}.

(** ** The process: environment, working directory, clock *)

Record World := {
  env : gmap string string;     (* process.env *)
  cwd : string;                 (* process.cwd() *)
  now : string;                 (* new Date().toISOString() *)
  uptime : string;              (* process.uptime() *)
  nodeVersion : string;         (* process.version *)
  platform : string             (* process.platform *)
}.

(** ** Types of the module *)

Record Repository := { repo_name : string; full_name : string }.
Record Pusher := { pusher_name : string; email : string }.

Record GitHubWebhookPayload := {
  ref : option string;
  repository : option Repository;
  pusher : option Pusher
}.

Record WebhookRequest := {
  headers : gmap string string;
  rawBody : option Buffer;
  body : GitHubWebhookPayload
}.

Record DeployResult := {
  success : bool;
  stdout : option string;
  stderr : option string;
  error : option string
}.

Record Config := {
  secret : option string;
  projectPath : string;
  deployCommand : string;
  allowedBranches : list string;
  enableDetailedLogs : bool
}.

(** [a || b] on [string | undefined] with a string default. *)
Definition or_default (v : option string) (d : string) : string :=
  match v with
  | Some (String c rest) => String c rest
  | _ => d
  end.

Definition getConfig (w : World) : Config :=
  {| secret := env w !! "WEBHOOK_SECRET";
     projectPath := or_default (env w !! "PROJECT_PATH") (cwd w);
     deployCommand := or_default (env w !! "DEPLOY_COMMAND") "yarn install && yarn build";
     allowedBranches :=
       match env w !! "ALLOWED_BRANCHES" with
       | Some s => split "," s
       | None => ["main"; "master"]
       end;
     enableDetailedLogs :=
       match env w !! "ENABLE_DETAILED_LOGS" with
       | Some s => String.eqb s "true"
       | None => false
       end |}.

Definition console_log (line : string) : M unit := emit (Console LInfo line []).

Definition validateConfig (w : World) : M unit :=
  let config := getConfig w in
  if negb (truthy (secret config)) then
    throw {| ename := "Error";
             emessage := "WEBHOOK_SECRET 環境変数が必要です";
             ehas_body := false |}
  else
    console_log "📋 設定を読み込みました:" ;;;
    console_log ("  プロジェクトパス: " +:+ projectPath config) ;;;
    console_log ("  デプロイコマンド: " +:+ deployCommand config) ;;;
    console_log ("  許可されたブランチ: " +:+ join ", " (allowedBranches config)).

(** [createLogger(prefix)] and the module's [logger]. *)
Record Logger := {
  log_info : World -> string -> list string -> M unit;
  log_warn : World -> string -> list string -> M unit;
  log_error : World -> string -> list string -> M unit
}.

Definition createLogger (prefix : string) : Logger :=
  {| log_info := fun w message args =>
       emit (Console LInfo (now w +:+ " [" +:+ prefix +:+ "] " +:+ message) args);
     log_warn := fun w message args =>
       emit (Console LWarn (now w +:+ " [" +:+ prefix +:+ "] ⚠️  " +:+ message) args);
     log_error := fun w message args =>
       emit (Console LError (now w +:+ " [" +:+ prefix +:+ "] ❌ " +:+ message) args) |}.

Definition logger : Logger := createLogger "WEBHOOK".

(** ** Signature verification *)

Definition verifySignature (w : World) (req : WebhookRequest) : M bool :=
  let config := getConfig w in
  let signature := headers req !! "x-hub-signature-256" in
  match signature with
  | Some (String c rest) =>
      let signature := String c rest in
      match rawBody req with
      | None =>
          log_warn logger w "生のリクエストボディが見つかりません" [] ;;;
          ret false
      | Some raw =>
          digest <- createHmac_hex (secret config) raw ;;
          let expected := "sha256=" +:+ digest in
          try_catch
            (if negb (Nat.eqb (String.length signature) (String.length expected)) then
               log_warn logger w "無効な署名です" [] ;;;
               ret false
             else
               isValid <- timingSafeEqual (Buffer_from signature) (Buffer_from expected) ;;
               (if negb isValid then log_warn logger w "無効な署名です" [] else ret tt) ;;;
               ret isValid)
            (fun err =>
               log_error logger w "署名検証に失敗しました:" [emessage err] ;;;
               ret false)
      end
  | _ =>
      log_warn logger w "署名ヘッダーが見つかりません" [] ;;;
      ret false
  end.

(** ** Branch check *)

Definition extractBranch (r : string) : string := replace "refs/heads/" "" r.

Definition isAllowedBranch (w : World) (r : string) : bool :=
  let config := getConfig w in
  let branch := extractBranch r in
  includes (allowedBranches config) branch.

(** ** Deployment

    [executeDeployment] is an [async] function.  What it does up to its
    [await] runs inside the caller; the rest runs when the spawned process has
    settled, with the [config] read at the start. *)

Inductive ExecSettled :=
| Resolved (out err : string)
| RejectedError (message : string) (out err : option string)
| RejectedOther.

Definition deployCommandLine (config : Config) : string :=
  "cd " +:+ projectPath config +:+ " && " +:+ deployCommand config.

Definition executeDeployment_start (w : World) : M Config :=
  let config := getConfig w in
  log_info logger w "🚀 デプロイを開始します..." [] ;;;
  log_info logger w ("実行コマンド: " +:+ deployCommandLine config) [] ;;;
  emit (Exec (deployCommandLine config) 300000) ;;;
  ret config.

Definition executeDeployment_settle (w : World) (config : Config) (r : ExecSettled)
  : M DeployResult :=
  match r with
  | Resolved out err =>
      (if enableDetailedLogs config then
         log_info logger w "デプロイ標準出力:" [out] ;;;
         (if truthy (Some err) then log_warn logger w "デプロイ標準エラー:" [err] else ret tt)
       else ret tt) ;;;
      log_info logger w "✅ デプロイが正常に完了しました" [] ;;;
      ret {| success := true; stdout := Some out; stderr := Some err; error := None |}
  | RejectedError message out err =>
      log_error logger w "❌ デプロイに失敗しました:" [message] ;;;
      ret {| success := false; error := Some message; stdout := out; stderr := err |}
  | RejectedOther =>
      let errorMessage := "不明なデプロイエラー" in
      log_error logger w "❌ デプロイに失敗しました:" [errorMessage] ;;;
      ret {| success := false; error := Some errorMessage; stdout := None; stderr := None |}
  end.

Definition executeDeployment (w w' : World) (r : ExecSettled) : M DeployResult :=
  config <- executeDeployment_start w ;;
  executeDeployment_settle w' config r.

(** ** Webhook handler *)

Definition is_push (e : option string) : bool :=
  match e with
  | Some s => String.eqb s "push"
  | None => false
  end.

(** The guard [payload.ref && !isAllowedBranch(payload.ref)]: the ref the
    branch check turns down, if any.  An absent or empty ref is falsy and the
    check is not made. *)
Definition refusedRef (w : World) (payload : GitHubWebhookPayload) : option string :=
  match ref payload with
  | Some r => if truthy (Some r) && negb (isAllowedBranch w r) then Some r else None
  | None => None
  end.

Definition handleWebhook (w : World) (req : WebhookRequest) : M unit :=
  try_catch
    (valid <- verifySignature w req ;;
     if negb valid then
       emit (Send 403 [("error", "無効な署名です")])
     else
       let event := headers req !! "x-github-event" in
       let payload := body req in
       log_info logger w ("📨 " +:+ interpolate event +:+ " イベントを受信しました") [] ;;;
       if negb (is_push event) then
         log_info logger w (interpolate event +:+ " イベントは無視します") [] ;;;
         emit (Send 200 [("message", interpolate event +:+ " イベントを無視しました")])
       else
         match refusedRef w payload with
         | Some r =>
             let branch := extractBranch r in
             log_info logger w ("ブランチ " +:+ branch +:+ " へのプッシュは無視します") [] ;;;
             emit (Send 200 [("message", "ブランチ " +:+ branch +:+ " へのプッシュを無視しました")])
         | None =>
             match repository payload, pusher payload with
             | Some repo, Some who =>
                 log_info logger w ("📦 リポジトリ: " +:+ full_name repo) [] ;;;
                 log_info logger w ("👤 プッシュユーザー: " +:+ pusher_name who
                                      +:+ " <" +:+ email who +:+ ">") []
             | _, _ => ret tt
             end ;;;
             executeDeployment_start w ;;;
             emit (Send 200 [("message", "デプロイが正常にトリガーされました");
                             ("timestamp", now w)])
         end)
    (fun err =>
       log_error logger w "Webhook ハンドラーエラー:" [emessage err] ;;;
       emit (Send 500 [("error", "内部サーバーエラー")])).

(** ** Health check *)

Definition handleHealthCheck (w : World) : M unit :=
  emit (Send 200 [("status", "healthy");
                  ("timestamp", now w);
                  ("uptime", uptime w);
                  ("version", or_default (env w !! "npm_package_version") "unknown");
                  ("nodeVersion", nodeVersion w);
                  ("platform", platform w)]).

(** ** The application

    What reaches the handlers is a request the JSON middleware has been over.
    The middleware leaves a request without a body or with another content
    type alone; otherwise it hands the bytes read to the [verify] hook, which
    stores them in [rawBody], and parses them; a parse failure is a
    [SyntaxError] that carries the [body].  The router then picks one of the
    three routes, or none. *)

Inductive JsonMiddleware :=
| Skipped
| Parsed (raw : Buffer) (payload : GitHubWebhookPayload)
| Failed (err : JsError).

Inductive Route := PostWebhook | GetHealth | GetRoot | NoRoute.

Record Incoming := {
  route : Route;
  in_headers : gmap string string;
  json : JsonMiddleware
}.

Definition emptyPayload : GitHubWebhookPayload :=
  {| ref := None; repository := None; pusher := None |}.

Definition Application : Type := World -> Incoming -> M unit.

Definition isJsonSyntaxError (e : JsError) : bool :=
  String.eqb (ename e) "SyntaxError" && ehas_body e.

Definition app : Application := fun w inc =>
  match json inc with
  | Failed err =>
      if isJsonSyntaxError err then
        emit (Send 400 [("error", "無効なJSONです")])
      else
        log_error logger w "未処理エラー:" [emessage err] ;;;
        emit (Send 500 [("error", "内部サーバーエラー")])
  | parsed =>
      let req :=
        match parsed with
        | Parsed raw payload =>
            {| headers := in_headers inc; rawBody := Some raw; body := payload |}
        | _ => {| headers := in_headers inc; rawBody := None; body := emptyPayload |}
        end in
      match route inc with
      | PostWebhook => handleWebhook w req
      | GetHealth => handleHealthCheck w
      | GetRoot => emit (Send 200 [("message", "GitHub Webhook サーバーが稼働中です")])
      | NoRoute => emit (Send 404 [("error", "ページが見つかりません")])
      end
  end.

(** [createServer] checks the configuration and builds the application; the
    application it returns holds no configuration. *)
Definition createServer (w : World) : M Application :=
  validateConfig w ;;;
  ret app.

(** ** Reading a run *)

Definition spawned (t : list event) : list string :=
  flat_map (fun e => match e with Exec c _ => [c] | _ => [] end) t.

Definition responses (t : list event) : list (Z * list (string * string)) :=
  flat_map (fun e => match e with Send st b => [(st, b)] | _ => [] end) t.

Definition compared (t : list event) : list (Buffer * Buffer) :=
  flat_map (fun e => match e with TimingSafeEqual a b => [(a, b)] | _ => [] end) t.

(** [createSignature] of the test utilities: how a sender signs a payload. *)
Definition createSignature (payload : Buffer) (secret : string) : string :=
  "sha256=" +:+ hex (hmac_sha256 (bytes_of secret) payload).

(** The response bodies. *)
Definition acceptBody (w : World) : list (string * string) :=
  [("message", "デプロイが正常にトリガーされました"); ("timestamp", now w)].

Definition ignoredEventBody (e : option string) : list (string * string) :=
  [("message", interpolate e +:+ " イベントを無視しました")].

Definition ignoredBranchBody (branch : string) : list (string * string) :=
  [("message", "ブランチ " +:+ branch +:+ " へのプッシュを無視しました")].

Definition invalidSignatureBody : list (string * string) := [("error", "無効な署名です")].
Definition internalErrorBody : list (string * string) := [("error", "内部サーバーエラー")].
Definition invalidJsonBody : list (string * string) := [("error", "無効なJSONです")].

(** ** Fixtures of the repository's tests

    [setupTestEnv], [createValidPayload] and the requests the tests send. *)

Definition testEnv : gmap string string :=
  <["WEBHOOK_SECRET" := "test-secret"]>
  (<["PROJECT_PATH" := "/test/project"]>
  (<["DEPLOY_COMMAND" := "echo " +:+ quoted "test deploy"]>
  (<["ALLOWED_BRANCHES" := "main,master"]>
  (<["ENABLE_DETAILED_LOGS" := "false"]> ∅)))).

Definition testWorld : World :=
  {| env := testEnv;
     cwd := "/srv/webhook";
     now := "2025-01-01T00:00:00.000Z";
     uptime := "12.5";
     nodeVersion := "v22.0.0";
     platform := "linux" |}.

Definition withEnv (e : gmap string string) (w : World) : World :=
  {| env := e; cwd := cwd w; now := now w; uptime := uptime w;
     nodeVersion := nodeVersion w; platform := platform w |}.

Definition validPayload : GitHubWebhookPayload :=
  {| ref := Some "refs/heads/main";
     repository := Some {| repo_name := "test-repo"; full_name := "user/test-repo" |};
     pusher := Some {| pusher_name := "testuser"; email := "test@example.com" |} |}.

Definition withRef (r : option string) (p : GitHubWebhookPayload) : GitHubWebhookPayload :=
  {| ref := r; repository := repository p; pusher := pusher p |}.

(** [JSON.stringify] of a payload whose strings need no escaping. *)
Definition stringify (p : GitHubWebhookPayload) : string :=
  let field (k v : string) := quoted k +:+ ":" +:+ v in
  let fields :=
    match ref p with Some r => [field "ref" (quoted r)] | None => [] end ++
    match repository p with
    | Some x => [field "repository"
                   ("{" +:+ field "name" (quoted (repo_name x)) +:+ ","
                        +:+ field "full_name" (quoted (full_name x)) +:+ "}")]
    | None => []
    end ++
    match pusher p with
    | Some x => [field "pusher"
                   ("{" +:+ field "name" (quoted (pusher_name x)) +:+ ","
                        +:+ field "email" (quoted (email x)) +:+ "}")]
    | None => []
    end in
  "{" +:+ join "," fields +:+ "}".

Definition requestHeaders (sig event : option string) : gmap string string :=
  let h := match event with Some e => <["x-github-event" := e]> ∅ | None => ∅ end in
  match sig with Some s => <["x-hub-signature-256" := s]> h | None => h end.

(** A JSON request as the tests send it: the payload's text on the wire, the
    signature header made with [key]. *)
Definition signedPush (key : string) (p : GitHubWebhookPayload) : WebhookRequest :=
  let raw := bytes_of (stringify p) in
  {| headers := requestHeaders (Some (createSignature raw key)) (Some "push");
     rawBody := Some raw;
     body := p |}.

Definition incoming (r : Route) (req : WebhookRequest) : Incoming :=
  {| route := r;
     in_headers := headers req;
     json := match rawBody req with
             | Some raw => Parsed raw (body req)
             | None => Skipped
             end |}.

(** Substring test, for reading log lines. *)
Definition contains (needle s : string) : bool :=
  match String.index 0 needle s with
  | Some _ => true
  | None => false
  end.

Definition mentions (needle : string) (e : event) : bool :=
  match e with
  | Console _ line args => contains needle line || existsb (contains needle) args
  | _ => false
  end.

(** What the console was given besides the line itself. *)
Definition loggedArgs (t : list event) : list string :=
  flat_map (fun e => match e with Console _ _ args => args | _ => [] end) t.

Definition errorLines (t : list event) : list event :=
  List.filter (fun e => match e with Console LError _ _ => true | _ => false end) t.

(** ** Statements the properties below are measured against *)

(** A signature made with another secret is turned down. *)
Definition RejectsOtherSecret (w : World) (req : WebhookRequest)
    (payload : Buffer) (s s' : string) : Prop :=
  env w !! "WEBHOOK_SECRET" = Some s ->
  rawBody req = Some payload ->
  headers req !! "x-hub-signature-256" = Some (createSignature payload s') ->
  s' <> s ->
  outcome (verifySignature w req) = Normal false.

Definition deploys (w : World) (req : WebhookRequest) : Prop :=
  spawned (trace (handleWebhook w req)) <> [].

(** A deployment exactly for a verified push whose branch is allowed. *)
Definition DeploysIffBranchAllowed (w : World) (req : WebhookRequest) : Prop :=
  deploys w req <->
  outcome (verifySignature w req) = Normal true /\
  headers req !! "x-github-event" = Some "push" /\
  exists r, ref (body req) = Some r /\
            In (extractBranch r) (allowedBranches (getConfig w)).

(** The configuration a request is handled with is the one of the world the
    server was created in. *)
Definition withConfigOf (w0 w : World) : World :=
  {| env := env w0; cwd := cwd w0; now := now w; uptime := uptime w;
     nodeVersion := nodeVersion w; platform := platform w |}.

Definition HandlesWithSnapshot (w0 w : World) (inc : Incoming) : Prop :=
  forall a, outcome (createServer w0) = Normal a -> a w inc = a (withConfigOf w0 w) inc.

(** A request without a raw body, or with an empty one, does not verify. *)
Definition RejectsMissingOrEmptyBody (w : World) (req : WebhookRequest) : Prop :=
  rawBody req = None \/ rawBody req = Some [] ->
  outcome (verifySignature w req) = Normal false.

(** The log of a failed deployment shows the captured stderr. *)
Definition FailureLogShowsStderr (w : World) (config : Config)
    (message : string) (out : option string) (err : string) : Prop :=
  exists e, In e (errorLines (trace (executeDeployment_settle w config
                                       (RejectedError message out (Some err)))))
            /\ mentions err e = true.

(** ** More ways to read a run *)

Definition consoleLines (t : list event) : list (level * string) :=
  flat_map (fun e => match e with Console lv line _ => [(lv, line)] | _ => [] end) t.

Definition execs (t : list event) : list (string * Z) :=
  flat_map (fun e => match e with Exec c limit => [(c, limit)] | _ => [] end) t.

Fixpoint string_forallb (f : ascii -> bool) (s : string) : bool :=
  match s with
  | EmptyString => true
  | String c rest => f c && string_forallb f rest
  end.

(** The characters of the class [[a-f0-9]]. *)
Definition is_lower_hex (c : ascii) : bool :=
  let n := nat_of_ascii c in
  (Nat.leb 48 n && Nat.leb n 57) || (Nat.leb 97 n && Nat.leb n 102).

Definition not_comma (c : ascii) : bool := negb (Ascii.eqb c ",").

Definition missingSecretError : JsError :=
  {| ename := "Error"; emessage := "WEBHOOK_SECRET 環境変数が必要です"; ehas_body := false |}.

(** * Properties *)

(** ** Checks against published vectors and the repository's tests *)

Example sha256_constants :
  length SHA256.K = 64%nat /\
  nth 0 SHA256.K 0%Z = 0x428a2f98%Z /\ nth 63 SHA256.K 0%Z = 0xc67178f2%Z /\
  SHA256.sa SHA256.H0 = 0x6a09e667%Z /\ SHA256.sh SHA256.H0 = 0x5be0cd19%Z.
Proof. vm_compute. repeat split. Qed.

Example sha256_abc :
  hex (SHA256.digest (bytes_of "abc"))
  = "ba7816bf8f01cfea414140de5dae2223b00361a396177a9cb410ff61f20015ad".
Proof. vm_compute. reflexivity. Qed.

Example hmac_rfc4231_case2 :
  hex (hmac_sha256 (bytes_of "Jefe") (bytes_of "what do ya want for nothing?"))
  = "5bdcc146bf60754e6a042426089575c75a003f089d2739839dec58b964ec3843".
Proof. vm_compute. reflexivity. Qed.

(** ** Strings and buffers *)

Lemma string_length_app (a b : string) :
  String.length (a +:+ b) = (String.length a + String.length b)%nat.
Proof. induction a as [| c a IH]; simpl; [reflexivity | now rewrite IH]. Qed.

Lemma hex_length (buf : Buffer) : String.length (hex buf) = (2 * length buf)%nat.
Proof.
  induction buf as [| b buf IH]; [reflexivity |].
  cbn [hex]. rewrite string_length_app, IH. cbn [hex_of_byte String.length length]. lia.
Qed.

Lemma digest_length (msg : Buffer) : length (SHA256.digest msg) = 32%nat.
Proof. unfold SHA256.digest, SHA256.state_words. reflexivity. Qed.

Lemma hmac_sha256_length (key msg : Buffer) : length (hmac_sha256 key msg) = 32%nat.
Proof. unfold hmac_sha256. apply digest_length. Qed.

Lemma createSignature_length (payload : Buffer) (s : string) :
  String.length (createSignature payload s) = 71%nat.
Proof.
  unfold createSignature. rewrite string_length_app, hex_length, hmac_sha256_length.
  reflexivity.
Qed.

Lemma utf8_decode_unit (c : ascii) (rest : Buffer) :
  utf8_decode (utf8_unit c ++ rest) = String c (utf8_decode rest).
Proof. destruct c as [[] [] [] [] [] [] [] []]; reflexivity. Qed.

Lemma utf8_decode_Buffer_from (s : string) : utf8_decode (Buffer_from s) = s.
Proof.
  induction s as [| c s IH]; [reflexivity |].
  cbn [Buffer_from]. now rewrite utf8_decode_unit, IH.
Qed.

Lemma Buffer_from_inj (s t : string) : Buffer_from s = Buffer_from t -> s = t.
Proof.
  intros H. rewrite <- (utf8_decode_Buffer_from s), <- (utf8_decode_Buffer_from t).
  now rewrite H.
Qed.

(** ** The constant-time comparison decides equality *)

Lemma Z_of_byte_inj (a b : byte) : Z_of_byte a = Z_of_byte b -> a = b.
Proof.
  unfold Z_of_byte. intros H. apply N2Z.inj in H.
  assert (Some a = Some b) as E by (rewrite <- !Byte.of_to_N; now rewrite H).
  now inversion E.
Qed.

Lemma memcmp_fold_zero (l : list (byte * byte)) (acc : Z) :
  fold_left memcmp_acc l acc = 0%Z <->
  acc = 0%Z /\ Forall (fun ab => fst ab = snd ab) l.
Proof.
  revert acc. induction l as [| [a b] l IH]; intros acc; cbn [fold_left].
  - split; [intros ->; split; [reflexivity | constructor] | now intros [-> _]].
  - rewrite IH. unfold memcmp_acc at 1. cbn [fst snd]. rewrite Z.lor_eq_0_iff. split.
    + intros [[-> Hx] Hl]. split; [reflexivity |]. constructor; [| exact Hl].
      cbn [fst snd]. now apply Z_of_byte_inj, Z.lxor_eq.
    + intros [-> Hl]. inversion Hl as [| ? ? Hab Hl']; subst. cbn [fst snd] in Hab. subst.
      split; [split; [reflexivity | apply Z.lxor_nilpotent] | exact Hl'].
Qed.

Lemma combine_eq_Forall {A} (a b : list A) :
  length a = length b ->
  Forall (fun ab => fst ab = snd ab) (combine a b) -> a = b.
Proof.
  revert b. induction a as [| x a IH]; intros [| y b] Hlen H; cbn in *; try discriminate.
  - reflexivity.
  - inversion H as [| ? ? Hxy Hrest]; subst. cbn in Hxy. subst. f_equal.
    apply IH; [now injection Hlen | exact Hrest].
Qed.

Lemma combine_same_Forall {A} (a : list A) :
  Forall (fun ab => fst ab = snd ab) (combine a a).
Proof. induction a; cbn; constructor; auto. Qed.

Lemma CRYPTO_memcmp_spec (a b : Buffer) :
  length a = length b -> (Z.eqb (CRYPTO_memcmp a b) 0 = true <-> a = b).
Proof.
  intros Hlen. rewrite Z.eqb_eq. unfold CRYPTO_memcmp. rewrite memcmp_fold_zero. split.
  - intros [_ H]. now apply combine_eq_Forall.
  - intros ->. split; [reflexivity | apply combine_same_Forall].
Qed.

(** ** Running computations *)

Lemma outcome_bind {A B} (m : M A) (k : A -> M B) :
  outcome (bind m k) =
  match outcome m with
  | Normal a => outcome (k a)
  | Abrupt e => Abrupt e
  end.
Proof. destruct m as [t [a | e]]; cbn; [destruct (k a) |]; reflexivity. Qed.

Lemma trace_bind {A B} (m : M A) (k : A -> M B) :
  trace (bind m k) =
  trace m ++ match outcome m with
             | Normal a => trace (k a)
             | Abrupt _ => []
             end.
Proof.
  destruct m as [t [a | e]]; cbn; [destruct (k a); reflexivity |].
  now rewrite app_nil_r.
Qed.

Lemma outcome_try_catch {A} (m : M A) (h : JsError -> M A) :
  outcome (try_catch m h) =
  match outcome m with
  | Normal a => Normal a
  | Abrupt e => outcome (h e)
  end.
Proof. destruct m as [t [a | e]]; cbn; [| destruct (h e)]; reflexivity. Qed.

Lemma trace_try_catch {A} (m : M A) (h : JsError -> M A) :
  trace (try_catch m h) =
  trace m ++ match outcome m with
             | Normal _ => []
             | Abrupt e => trace (h e)
             end.
Proof.
  destruct m as [t [a | e]]; cbn; [now rewrite app_nil_r |].
  destruct (h e); reflexivity.
Qed.

Lemma spawned_app (s t : list event) : spawned (s ++ t) = spawned s ++ spawned t.
Proof. apply flat_map_app. Qed.

Lemma responses_app (s t : list event) : responses (s ++ t) = responses s ++ responses t.
Proof. apply flat_map_app. Qed.

Lemma compared_app (s t : list event) : compared (s ++ t) = compared s ++ compared t.
Proof. apply flat_map_app. Qed.

Ltac run :=
  repeat (rewrite ?outcome_bind, ?trace_bind, ?outcome_try_catch, ?trace_try_catch,
            ?spawned_app, ?responses_app, ?compared_app;
          cbn [trace outcome fst snd ret emit throw app spawned responses compared flat_map
               log_info log_warn log_error logger createLogger negb]).

(** ** Signature verification *)

Section Verify.
Variables (w : World) (req : WebhookRequest).

Lemma timingSafeEqual_outcome (a b : Buffer) :
  length a = length b ->
  outcome (timingSafeEqual a b) = Normal (Z.eqb (CRYPTO_memcmp a b) 0).
Proof. intros H. unfold timingSafeEqual. run. now rewrite H, Nat.eqb_refl. Qed.

(** The verifier neither spawns a process nor sends a response. *)
Lemma verifySignature_quiet :
  spawned (trace (verifySignature w req)) = [] /\
  responses (trace (verifySignature w req)) = [].
Proof.
  unfold verifySignature, createHmac_hex, timingSafeEqual.
  destruct (headers req !! "x-hub-signature-256") as [[| c sig] |]; run; auto.
  destruct (rawBody req) as [raw |]; run; auto.
  destruct (secret (getConfig w)) as [k |]; run; auto.
  destruct (Nat.eqb _ _); run; auto.
  destruct (Nat.eqb _ _); run; auto.
  destruct (Z.eqb _ _); run; auto.
Qed.

Variables (sig : string) (raw : Buffer) (k : string).
Hypothesis Hsig : headers req !! "x-hub-signature-256" = Some sig.
Hypothesis Hraw : rawBody req = Some raw.
Hypothesis Hkey : env w !! "WEBHOOK_SECRET" = Some k.

(** With a header, a captured body and a secret, the verifier answers whether
    the header is the expected string. *)
Lemma verifySignature_outcome :
  outcome (verifySignature w req) = Normal (String.eqb sig (createSignature raw k)).
Proof.
  unfold verifySignature. rewrite Hsig, Hraw. cbn [getConfig secret]. rewrite Hkey.
  fold (createSignature raw k).
  destruct sig as [| c rest] eqn:Esig.
  - run. unfold createSignature. reflexivity.
  - rewrite <- Esig. unfold createHmac_hex. run. fold (createSignature raw k).
    destruct (Nat.eqb (String.length sig) (String.length (createSignature raw k))) eqn:Elen; run.
    + apply Nat.eqb_eq in Elen.
      destruct (Nat.eqb_spec (length (Buffer_from sig))
                             (length (Buffer_from (createSignature raw k)))) as [Hb | Hb].
      * rewrite (timingSafeEqual_outcome _ _ Hb).
        destruct (Z.eqb _ 0) eqn:Ecmp; run.
        -- apply (CRYPTO_memcmp_spec _ _ Hb), Buffer_from_inj in Ecmp.
           rewrite Ecmp. now rewrite String.eqb_refl.
        -- destruct (String.eqb_spec sig (createSignature raw k)) as [E |]; [| reflexivity].
           rewrite E in Ecmp.
           assert (Z.eqb (CRYPTO_memcmp (Buffer_from (createSignature raw k))
                                        (Buffer_from (createSignature raw k))) 0 = true)
             as T by now apply CRYPTO_memcmp_spec.
           congruence.
      * unfold timingSafeEqual. run. apply Nat.eqb_neq in Hb. rewrite Hb. run.
        destruct (String.eqb_spec sig (createSignature raw k)) as [E |]; [| reflexivity].
        apply Nat.eqb_neq in Hb. now rewrite E in Hb.
    + destruct (String.eqb_spec sig (createSignature raw k)) as [E |]; [| reflexivity].
      apply Nat.eqb_neq in Elen. now rewrite E in Elen.
Qed.

(** When the lengths differ the comparator is not reached. *)
Lemma verifySignature_length_guard :
  String.length sig <> String.length (createSignature raw k) ->
  compared (trace (verifySignature w req)) = [].
Proof.
  intros Hlen. unfold verifySignature. rewrite Hsig, Hraw. cbn [getConfig secret].
  rewrite Hkey. fold (createSignature raw k).
  destruct sig as [| c rest] eqn:Esig; [reflexivity |].
  rewrite <- Esig in *. unfold createHmac_hex. run. fold (createSignature raw k).
  apply Nat.eqb_neq in Hlen. rewrite Hlen. run. reflexivity.
Qed.
End Verify.

(** ** The disposition of a webhook request *)

Section Disposition.
Variables (w : World) (req : WebhookRequest).

Lemma handleWebhook_spawned :
  spawned (trace (handleWebhook w req)) =
  match outcome (verifySignature w req) with
  | Normal true =>
      if is_push (headers req !! "x-github-event") then
        match refusedRef w (body req) with
        | Some _ => []
        | None => [deployCommandLine (getConfig w)]
        end
      else []
  | _ => []
  end.
Proof.
  unfold handleWebhook. destruct (verifySignature_quiet w req) as [Hs _].
  run. rewrite Hs.
  destruct (outcome (verifySignature w req)) as [[] | e]; run; try reflexivity.
  destruct (is_push _); run; [| reflexivity].
  destruct (refusedRef w (body req)); run; [reflexivity |].
  unfold executeDeployment_start.
  destruct (repository (body req)), (pusher (body req)); run; reflexivity.
Qed.

Lemma handleWebhook_responses :
  responses (trace (handleWebhook w req)) =
  match outcome (verifySignature w req) with
  | Normal true =>
      if is_push (headers req !! "x-github-event") then
        match refusedRef w (body req) with
        | Some r => [(200%Z, ignoredBranchBody (extractBranch r))]
        | None => [(200%Z, acceptBody w)]
        end
      else [(200%Z, ignoredEventBody (headers req !! "x-github-event"))]
  | Normal false => [(403%Z, invalidSignatureBody)]
  | Abrupt _ => [(500%Z, internalErrorBody)]
  end.
Proof.
  unfold handleWebhook. destruct (verifySignature_quiet w req) as [_ Hr].
  run. rewrite Hr.
  destruct (outcome (verifySignature w req)) as [[] | e]; run; try reflexivity.
  destruct (is_push _); run; [| reflexivity].
  destruct (refusedRef w (body req)); run; [reflexivity |].
  unfold executeDeployment_start.
  destruct (repository (body req)), (pusher (body req)); run; reflexivity.
Qed.

(** The handler itself never throws: its [catch] answers 500. *)
Lemma handleWebhook_returns : outcome (handleWebhook w req) = Normal tt.
Proof.
  unfold handleWebhook. run.
  destruct (outcome (verifySignature w req)) as [[] | e]; run; try reflexivity.
  destruct (is_push _); run; [| reflexivity].
  destruct (refusedRef w (body req)); run; [reflexivity |].
  unfold executeDeployment_start.
  destruct (repository (body req)), (pusher (body req)); run; reflexivity.
Qed.
End Disposition.

Lemma is_push_true (e : option string) : is_push e = true <-> e = Some "push".
Proof.
  destruct e as [s |]; cbn; [| now split].
  destruct (String.eqb_spec s "push") as [-> | N]; split; auto; try discriminate.
  intros [= E]. contradiction.
Qed.

Lemma includes_In (arr : list string) (x : string) : includes arr x = true <-> In x arr.
Proof.
  unfold includes. rewrite existsb_exists. split.
  - intros [y [Hy E]]. apply String.eqb_eq in E. now subst.
  - intros H. exists x. split; [exact H | apply String.eqb_refl].
Qed.

Lemma refusedRef_None (w : World) (p : GitHubWebhookPayload) :
  refusedRef w p = None <->
  truthy (ref p) = false \/
  exists r, ref p = Some r /\ In (extractBranch r) (allowedBranches (getConfig w)).
Proof.
  unfold refusedRef, isAllowedBranch. destruct (ref p) as [r |]; [| cbn; tauto].
  destruct (truthy (Some r)) eqn:T; cbn [andb].
  - destruct (includes _ _) eqn:I; cbn [negb].
    + apply includes_In in I. split; [intros _; right; eauto | reflexivity].
    + split; [discriminate |]. intros [? | [r' [[= <-] Hin]]]; [discriminate |].
      apply includes_In in Hin. congruence.
  - split; [auto | reflexivity].
Qed.

(** ** Branch extraction *)

Lemma replace_unfold (pat rep s : string) :
  replace pat rep s =
  if String.prefix pat s then rep +:+ string_drop (String.length pat) s
  else match s with
       | EmptyString => EmptyString
       | String c rest => String c (replace pat rep rest)
       end.
Proof. destruct s; reflexivity. Qed.

Lemma prefix_app (p s : string) : String.prefix p (p +:+ s) = true.
Proof.
  induction p as [| c p IH]; [destruct s; reflexivity |].
  change (String c p +:+ s) with (String c (p +:+ s)). cbn [String.prefix].
  destruct (ascii_dec c c) as [_ | N]; [exact IH | contradiction].
Qed.

Lemma string_drop_app (p s : string) : string_drop (String.length p) (p +:+ s) = s.
Proof. induction p as [| c p IH]; [destruct s; reflexivity | exact IH]. Qed.

Lemma extractBranch_heads (b : string) : extractBranch ("refs/heads/" +:+ b) = b.
Proof.
  unfold extractBranch. rewrite replace_unfold, prefix_app, string_drop_app. reflexivity.
Qed.

Lemma extractBranch_nonempty (r : string) : extractBranch r <> "" -> truthy (Some r) = true.
Proof. destruct r; [intros H; now contradiction H | reflexivity]. Qed.

(** ** Verification against the sender's signature *)

(** C1, as the code has it: a request signed with the server's own secret
    verifies, for every payload and secret; a request signed with a secret
    [s'] verifies exactly when [s'] signs the payload as the server's secret
    does, so it is turned down whenever the two signatures differ. *)
Theorem verify_sign (w : World) (req : WebhookRequest) (payload : Buffer) (s s' : string) :
  env w !! "WEBHOOK_SECRET" = Some s ->
  rawBody req = Some payload ->
  headers req !! "x-hub-signature-256" = Some (createSignature payload s') ->
  (s' = s -> outcome (verifySignature w req) = Normal true) /\
  (createSignature payload s' <> createSignature payload s ->
   outcome (verifySignature w req) = Normal false) /\
  (outcome (verifySignature w req) = Normal true ->
   createSignature payload s' = createSignature payload s).
Proof.
  intros Hkey Hraw Hsig.
  rewrite (verifySignature_outcome w req _ _ _ Hsig Hraw Hkey).
  destruct (String.eqb_spec (createSignature payload s') (createSignature payload s))
    as [E | N].
  - repeat split; auto. intros; contradiction.
  - repeat split; auto; [| discriminate]. intros ->. contradiction.
Qed.

Lemma verify_sign_witness :
  let req := signedPush "wrong-secret" validPayload in
  let payload := bytes_of (stringify validPayload) in
  env testWorld !! "WEBHOOK_SECRET" = Some "test-secret" /\
  rawBody req = Some payload /\
  headers req !! "x-hub-signature-256" = Some (createSignature payload "wrong-secret") /\
  outcome (verifySignature testWorld req) = Normal false /\
  outcome (verifySignature testWorld (signedPush "test-secret" validPayload)) = Normal true.
Proof.
  intros req payload.
  assert (env testWorld !! "WEBHOOK_SECRET" = Some "test-secret") as Hkey
    by (vm_compute; reflexivity).
  assert (rawBody req = Some payload) as Hraw by reflexivity.
  assert (headers req !! "x-hub-signature-256" = Some (createSignature payload "wrong-secret"))
    as Hsig by (vm_compute; reflexivity).
  split; [exact Hkey |]. split; [exact Hraw |]. split; [exact Hsig |]. split.
  - apply (verify_sign testWorld req payload "test-secret" "wrong-secret" Hkey Hraw Hsig).
    vm_compute. discriminate.
  - apply (verify_sign testWorld (signedPush "test-secret" validPayload) payload
             "test-secret" "test-secret" Hkey eq_refl); [vm_compute |]; reflexivity.
Defined.

(** C1 as stated fails: HMAC pads a key shorter than its block with zero
    bytes, so the secret followed by a NUL character is a different secret
    that signs every payload the same way, and its signature verifies. *)
Lemma verify_other_secret_accepted :
  let s := "test-secret" in
  let s' := "test-secret" +:+ String "000"%char EmptyString in
  s' <> s /\
  ~ RejectsOtherSecret testWorld (signedPush s' validPayload)
      (bytes_of (stringify validPayload)) s s'.
Proof.
  cbv zeta. split; [discriminate |].
  intros H.
  assert (outcome (verifySignature testWorld
            (signedPush ("test-secret" +:+ String "000"%char EmptyString) validPayload))
          = Normal false) as F.
  { apply H; [vm_compute; reflexivity | reflexivity | vm_compute; reflexivity | discriminate]. }
  assert (outcome (verifySignature testWorld
            (signedPush ("test-secret" +:+ String "000"%char EmptyString) validPayload))
          = Normal true) as T by (vm_compute; reflexivity).
  rewrite T in F. discriminate F.
Qed.

(** ** When a deployment is triggered *)

(** C2, as the code has it: a deployment is triggered if and only if the
    signature verified, the event is push, and the payload's ref is absent or
    empty or names an allowed branch; a request answered otherwise than by the
    acceptance triggers none. *)
Theorem deploys_iff (w : World) (req : WebhookRequest) :
  (deploys w req <->
   outcome (verifySignature w req) = Normal true /\
   headers req !! "x-github-event" = Some "push" /\
   (truthy (ref (body req)) = false \/
    exists r, ref (body req) = Some r /\
              In (extractBranch r) (allowedBranches (getConfig w)))) /\
  (spawned (trace (handleWebhook w req)) = [] \/
   spawned (trace (handleWebhook w req)) = [deployCommandLine (getConfig w)] /\
   responses (trace (handleWebhook w req)) = [(200%Z, acceptBody w)]).
Proof.
  unfold deploys. rewrite handleWebhook_spawned, handleWebhook_responses.
  rewrite <- is_push_true, <- refusedRef_None.
  destruct (outcome (verifySignature w req)) as [[] | e];
    destruct (is_push _); destruct (refusedRef w (body req));
    (split; [split; [intros H; try (now contradiction H); repeat split; auto
                    | intros (A & B & C); try discriminate; auto]
            | auto]).
Qed.

(** C2 as stated fails: a verified push whose payload has no ref is deployed
    although no branch was extracted from it. *)
Lemma deploys_without_branch :
  ~ DeploysIffBranchAllowed testWorld (signedPush "test-secret" (withRef None validPayload)).
Proof.
  unfold DeploysIffBranchAllowed. intros [H _].
  destruct H as (_ & _ & r & Hr & _); [| discriminate Hr].
  unfold deploys. vm_compute. discriminate.
Qed.

(** ** The length guard *)

(** What the guard does give: a signature header whose string length differs
    from that of the expected string makes the verifier return false, without
    throwing, and the constant-time comparator is not called. *)
Lemma length_mismatch_short_circuits
    (w : World) (req : WebhookRequest) (sig : string) (raw : Buffer) (k : string) :
  headers req !! "x-hub-signature-256" = Some sig ->
  rawBody req = Some raw ->
  env w !! "WEBHOOK_SECRET" = Some k ->
  String.length sig <> String.length ("sha256=" +:+ hex (hmac_sha256 (bytes_of k) raw)) ->
  outcome (verifySignature w req) = Normal false /\
  compared (trace (verifySignature w req)) = [].
Proof.
  intros Hsig Hraw Hkey Hlen. fold (createSignature raw k) in Hlen. split.
  - rewrite (verifySignature_outcome w req _ _ _ Hsig Hraw Hkey).
    destruct (String.eqb_spec sig (createSignature raw k)) as [E |]; [| reflexivity].
    now rewrite E in Hlen.
  - exact (verifySignature_length_guard w req _ _ _ Hsig Hraw Hkey Hlen).
Qed.

Lemma length_mismatch_short_circuits_witness :
  let raw := bytes_of (stringify validPayload) in
  let req := {| headers := requestHeaders (Some "sha256=invalid-signature") (Some "push");
                rawBody := Some raw;
                body := validPayload |} in
  String.length "sha256=invalid-signature"
    <> String.length ("sha256=" +:+ hex (hmac_sha256 (bytes_of "test-secret") raw)) /\
  outcome (verifySignature testWorld req) = Normal false /\
  compared (trace (verifySignature testWorld req)) = [].
Proof.
  intros raw req.
  assert (String.length "sha256=invalid-signature"
          <> String.length ("sha256=" +:+ hex (hmac_sha256 (bytes_of "test-secret") raw)))
    as Hlen by (vm_compute; discriminate).
  split; [exact Hlen |].
  apply (length_mismatch_short_circuits testWorld req "sha256=invalid-signature" raw
           "test-secret"); [vm_compute; reflexivity | reflexivity | vm_compute; reflexivity
                           | exact Hlen].
Defined.

(** C3 is not kept by the code.  The guard compares the lengths of the
    strings, in code units, while the comparator is given their UTF-8
    buffers: a header as long as the expected string whose buffer has another
    length passes the guard, the comparator is called on the two buffers of
    different sizes and throws, and only the [catch] turns that into false,
    with an error line. *)
Theorem length_guard_misses_byte_length
    (w : World) (req : WebhookRequest) (sig : string) (raw : Buffer) (k : string) :
  headers req !! "x-hub-signature-256" = Some sig ->
  rawBody req = Some raw ->
  env w !! "WEBHOOK_SECRET" = Some k ->
  String.length sig = String.length (createSignature raw k) ->
  length (Buffer_from sig) <> length (Buffer_from (createSignature raw k)) ->
  compared (trace (verifySignature w req))
    = [(Buffer_from sig, Buffer_from (createSignature raw k))] /\
  consoleLines (trace (verifySignature w req))
    = [(LError, now w +:+ " [WEBHOOK] ❌ 署名検証に失敗しました:")] /\
  outcome (verifySignature w req) = Normal false.
Proof.
  intros Hsig Hraw Hkey Hlen Hbuf.
  assert (sig <> "") as Hne
    by (intros ->; rewrite createSignature_length in Hlen; discriminate Hlen).
  unfold verifySignature. rewrite Hsig, Hraw. cbn [getConfig secret]. rewrite Hkey.
  fold (createSignature raw k).
  destruct sig as [| c rest] eqn:Esig; [contradiction |]. rewrite <- Esig in *.
  unfold createHmac_hex, timingSafeEqual.
  apply Nat.eqb_eq in Hlen. apply Nat.eqb_neq in Hbuf.
  repeat (rewrite ?outcome_bind, ?trace_bind, ?outcome_try_catch, ?trace_try_catch;
          fold (createSignature raw k); rewrite ?Hlen, ?Hbuf;
          cbn [trace outcome fst snd ret emit throw app negb
               log_info log_warn log_error logger createLogger]).
  repeat split.
Qed.

Lemma length_guard_misses_byte_length_witness :
  let sig := "sha256=" +:+ String (ascii_of_nat 233) EmptyString
             +:+ "000000000000000000000000000000000000000000000000000000000000000" in
  let raw := bytes_of "{}" in
  let req := {| headers := requestHeaders (Some sig) (Some "push");
                rawBody := Some raw;
                body := emptyPayload |} in
  (String.length sig = 71%nat /\ length (Buffer_from sig) = 72%nat /\
   length (Buffer_from (createSignature raw "test-secret")) = 71%nat) /\
  compared (trace (verifySignature testWorld req))
    = [(Buffer_from sig, Buffer_from (createSignature raw "test-secret"))] /\
  consoleLines (trace (verifySignature testWorld req))
    = [(LError, now testWorld +:+ " [WEBHOOK] ❌ 署名検証に失敗しました:")] /\
  outcome (verifySignature testWorld req) = Normal false.
Proof.
  intros sig raw req.
  split; [vm_compute; repeat split |].
  apply (length_guard_misses_byte_length testWorld req sig raw "test-secret");
    [vm_compute; reflexivity | reflexivity | vm_compute; reflexivity
    | vm_compute; reflexivity | vm_compute; discriminate].
Defined.

(** ** Accepting *)

(** C6: a request with a valid signature, event type push and a branch in
    the allowed set is answered 200 with the acceptance message, and exactly
    one process is spawned, with the command
    ['cd ' + projectPath + ' && ' + deployCommand]. *)
Theorem accepted_push (w : World) (req : WebhookRequest) (r : string) :
  outcome (verifySignature w req) = Normal true ->
  headers req !! "x-github-event" = Some "push" ->
  ref (body req) = Some r ->
  In (extractBranch r) (allowedBranches (getConfig w)) ->
  responses (trace (handleWebhook w req))
    = [(200%Z, [("message", "デプロイが正常にトリガーされました"); ("timestamp", now w)])] /\
  spawned (trace (handleWebhook w req))
    = ["cd " +:+ projectPath (getConfig w) +:+ " && " +:+ deployCommand (getConfig w)].
Proof.
  intros Hv He Hr Hin.
  rewrite handleWebhook_responses, handleWebhook_spawned, Hv.
  apply is_push_true in He. rewrite He.
  assert (refusedRef w (body req) = None) as ->
    by (apply refusedRef_None; right; eauto).
  split; reflexivity.
Qed.

Lemma accepted_push_witness :
  let req := signedPush "test-secret" validPayload in
  outcome (verifySignature testWorld req) = Normal true /\
  In (extractBranch "refs/heads/main") (allowedBranches (getConfig testWorld)) /\
  responses (trace (handleWebhook testWorld req))
    = [(200%Z, [("message", "デプロイが正常にトリガーされました");
                ("timestamp", "2025-01-01T00:00:00.000Z")])] /\
  spawned (trace (handleWebhook testWorld req))
    = ["cd /test/project && echo " +:+ quoted "test deploy"].
Proof.
  intros req.
  assert (outcome (verifySignature testWorld req) = Normal true) as Hv
    by (vm_compute; reflexivity).
  assert (In (extractBranch "refs/heads/main") (allowedBranches (getConfig testWorld)))
    as Hin by (vm_compute; auto).
  split; [exact Hv |]. split; [exact Hin |].
  apply (accepted_push testWorld req "refs/heads/main" Hv);
    [vm_compute; reflexivity | reflexivity | exact Hin].
Defined.

(** C4: a verified push whose payload has no ref is accepted without a
    branch check: the acceptance is sent and the deployment is started; for a
    ref [refs/heads/<branch>] the branch extracted is [<branch>]. *)
Theorem missing_ref_accepted (w : World) (req : WebhookRequest) :
  outcome (verifySignature w req) = Normal true ->
  headers req !! "x-github-event" = Some "push" ->
  (ref (body req) = None ->
   responses (trace (handleWebhook w req)) = [(200%Z, acceptBody w)] /\
   spawned (trace (handleWebhook w req)) = [deployCommandLine (getConfig w)]) /\
  (forall branch, extractBranch ("refs/heads/" +:+ branch) = branch).
Proof.
  intros Hv He. split; [| exact extractBranch_heads].
  intros Hr. rewrite handleWebhook_responses, handleWebhook_spawned, Hv.
  apply is_push_true in He. rewrite He.
  unfold refusedRef. rewrite Hr. split; reflexivity.
Qed.

Lemma missing_ref_accepted_witness :
  let req := signedPush "test-secret" (withRef None validPayload) in
  outcome (verifySignature testWorld req) = Normal true /\
  headers req !! "x-github-event" = Some "push" /\
  ref (body req) = None /\
  responses (trace (handleWebhook testWorld req)) = [(200%Z, acceptBody testWorld)] /\
  spawned (trace (handleWebhook testWorld req)) = [deployCommandLine (getConfig testWorld)].
Proof.
  intros req.
  assert (outcome (verifySignature testWorld req) = Normal true) as Hv
    by (vm_compute; reflexivity).
  assert (headers req !! "x-github-event" = Some "push") as He by (vm_compute; reflexivity).
  split; [exact Hv |]. split; [exact He |]. split; [reflexivity |].
  apply (missing_ref_accepted testWorld req Hv He). reflexivity.
Defined.

(** ** Requests without a raw body *)

(** C7, as the code has it: a request whose raw body is absent does not
    verify, whatever its signature header, and is answered 403 without a
    deployment; a raw body that was captured and is empty is verified like any
    other, against the signature of the empty byte string. *)
Theorem missing_body_rejected (w : World) (req : WebhookRequest) :
  (rawBody req = None ->
   outcome (verifySignature w req) = Normal false /\
   responses (trace (handleWebhook w req)) = [(403%Z, [("error", "無効な署名です")])] /\
   spawned (trace (handleWebhook w req)) = []) /\
  (forall sig k,
     rawBody req = Some [] ->
     headers req !! "x-hub-signature-256" = Some sig ->
     env w !! "WEBHOOK_SECRET" = Some k ->
     outcome (verifySignature w req) = Normal (String.eqb sig (createSignature [] k))).
Proof.
  split.
  - intros Hraw.
    assert (outcome (verifySignature w req) = Normal false) as Hv.
    { unfold verifySignature. rewrite Hraw.
      destruct (headers req !! "x-hub-signature-256") as [[| c sig] |]; run; reflexivity. }
    rewrite handleWebhook_responses, handleWebhook_spawned, Hv. auto.
  - intros sig k Hraw Hsig Hkey. exact (verifySignature_outcome w req _ _ _ Hsig Hraw Hkey).
Qed.

Lemma missing_body_rejected_witness :
  let req := {| headers := requestHeaders
                             (Some (createSignature (bytes_of (stringify validPayload))
                                      "test-secret"))
                             (Some "push");
                rawBody := None;
                body := emptyPayload |} in
  rawBody req = None /\
  outcome (verifySignature testWorld req) = Normal false /\
  responses (trace (handleWebhook testWorld req)) = [(403%Z, [("error", "無効な署名です")])] /\
  spawned (trace (handleWebhook testWorld req)) = [].
Proof.
  intros req. split; [reflexivity |].
  apply (missing_body_rejected testWorld req). reflexivity.
Defined.

(** C7 as stated fails for the empty body: the bytes were captured, the
    header carries the signature of the empty byte string, the verifier
    returns true and the push is accepted. *)
Lemma empty_body_verifies :
  let req := {| headers := requestHeaders (Some (createSignature [] "test-secret"))
                             (Some "push");
                rawBody := Some [];
                body := emptyPayload |} in
  ~ RejectsMissingOrEmptyBody testWorld req /\
  responses (trace (handleWebhook testWorld req)) = [(200%Z, acceptBody testWorld)].
Proof.
  cbv zeta. split; [| vm_compute; reflexivity].
  intros H. specialize (H (or_intror eq_refl)).
  match type of H with
  | outcome ?run = _ =>
      assert (outcome run = Normal true) as T by (vm_compute; reflexivity)
  end.
  rewrite T in H. discriminate H.
Qed.

(** ** Malformed JSON *)

(** C9: when the JSON middleware fails to parse the body, the answer is 400
    with the invalid-JSON error body, whatever the headers and the route, and
    nothing is spawned. *)
Theorem malformed_json_400 (w : World) (inc : Incoming) (err : JsError) :
  json inc = Failed err ->
  ename err = "SyntaxError" ->
  ehas_body err = true ->
  trace (app w inc) = [Send 400 [("error", "無効なJSONです")]] /\
  outcome (app w inc) = Normal tt /\
  spawned (trace (app w inc)) = [].
Proof.
  intros Hj Hn Hb. unfold app, isJsonSyntaxError. rewrite Hj, Hn, Hb. repeat split.
Qed.

Lemma malformed_json_400_witness :
  let err := {| ename := "SyntaxError";
                emessage := "Unexpected token j in JSON at position 12";
                ehas_body := true |} in
  let inc := {| route := PostWebhook;
                in_headers := requestHeaders (Some "sha256=invalid") (Some "push");
                json := Failed err |} in
  trace (app testWorld inc) = [Send 400 [("error", "無効なJSONです")]] /\
  outcome (app testWorld inc) = Normal tt /\
  spawned (trace (app testWorld inc)) = [].
Proof.
  intros err inc. apply (malformed_json_400 testWorld inc err); reflexivity.
Defined.

(** ** An empty ALLOWED_BRANCHES *)

Lemma includes_singleton (a x : string) : includes [a] x = true <-> x = a.
Proof.
  unfold includes. cbn [existsb]. rewrite orb_false_r. apply String.eqb_eq.
Qed.

(** C10: with ALLOWED_BRANCHES set to the empty string the allowed branches
    are the one-element list holding the empty string, not the default; a
    verified push whose ref gives a non-empty branch is ignored, and one whose
    ref gives the empty branch, such as ['refs/heads/'], is accepted. *)
Theorem empty_allowed_branches (w : World) :
  env w !! "ALLOWED_BRANCHES" = Some "" ->
  allowedBranches (getConfig w) = [""] /\
  (forall r, isAllowedBranch w r = true <-> extractBranch r = "") /\
  extractBranch "refs/heads/" = "" /\
  (forall req r,
     outcome (verifySignature w req) = Normal true ->
     headers req !! "x-github-event" = Some "push" ->
     ref (body req) = Some r ->
     (extractBranch r <> "" ->
      responses (trace (handleWebhook w req))
        = [(200%Z, ignoredBranchBody (extractBranch r))] /\
      spawned (trace (handleWebhook w req)) = []) /\
     (extractBranch r = "" ->
      responses (trace (handleWebhook w req)) = [(200%Z, acceptBody w)] /\
      spawned (trace (handleWebhook w req)) = [deployCommandLine (getConfig w)])).
Proof.
  intros Henv.
  assert (allowedBranches (getConfig w) = [""]) as Hab
    by (cbn [getConfig allowedBranches]; now rewrite Henv).
  assert (forall r, isAllowedBranch w r = true <-> extractBranch r = "") as Hallowed
    by (intros r; unfold isAllowedBranch; rewrite Hab; apply includes_singleton).
  split; [exact Hab |]. split; [exact Hallowed |]. split; [reflexivity |].
  intros req r Hv He Hr.
  rewrite handleWebhook_responses, handleWebhook_spawned, Hv.
  apply is_push_true in He. rewrite He. unfold refusedRef. rewrite Hr. split.
  - intros Hne. rewrite (extractBranch_nonempty r Hne).
    destruct (isAllowedBranch w r) eqn:A; [apply Hallowed in A; contradiction |].
    split; reflexivity.
  - intros Hempty. apply Hallowed in Hempty. rewrite Hempty, andb_false_r.
    split; reflexivity.
Qed.

Lemma empty_allowed_branches_witness :
  let w := withEnv (<["ALLOWED_BRANCHES" := ""]> testEnv) testWorld in
  let req := signedPush "test-secret" validPayload in
  env w !! "ALLOWED_BRANCHES" = Some "" /\
  allowedBranches (getConfig w) = [""] /\
  responses (trace (handleWebhook w req)) = [(200%Z, ignoredBranchBody "main")] /\
  spawned (trace (handleWebhook w req)) = [].
Proof.
  intros w req.
  assert (env w !! "ALLOWED_BRANCHES" = Some "") as Henv by (vm_compute; reflexivity).
  split; [exact Henv |].
  destruct (empty_allowed_branches w Henv) as (Hab & _ & _ & Hreq).
  split; [exact Hab |].
  apply (Hreq req "refs/heads/main");
    [vm_compute; reflexivity | vm_compute; reflexivity | reflexivity
    | vm_compute; discriminate].
Defined.

(** ** Where the configuration comes from *)

Section ReadAtRequest.
Variables (w1 w2 : World).
Hypothesis Hconfig : getConfig w1 = getConfig w2.
Hypothesis Hnow : now w1 = now w2.

Lemma verifySignature_config (req : WebhookRequest) :
  verifySignature w1 req = verifySignature w2 req.
Proof.
  unfold verifySignature, log_warn, log_error, logger, createLogger.
  rewrite Hconfig, Hnow. reflexivity.
Qed.

Lemma handleWebhook_config (req : WebhookRequest) :
  handleWebhook w1 req = handleWebhook w2 req.
Proof.
  unfold handleWebhook, refusedRef, isAllowedBranch, executeDeployment_start.
  rewrite verifySignature_config.
  unfold log_info, log_error, logger, createLogger.
  rewrite Hconfig, Hnow. reflexivity.
Qed.
End ReadAtRequest.

(** Construction succeeds exactly when the secret is set and not empty, and
    then returns the one application. *)
Lemma createServer_outcome (w : World) :
  truthy (env w !! "WEBHOOK_SECRET") = true -> outcome (createServer w) = Normal app.
Proof.
  intros H. unfold createServer, validateConfig. cbn [getConfig secret]. rewrite H.
  run. reflexivity.
Qed.

Lemma createServer_throws (w : World) :
  truthy (env w !! "WEBHOOK_SECRET") = false ->
  exists e, createServer w = ([], Abrupt e).
Proof.
  intros H. unfold createServer, validateConfig. cbn [getConfig secret]. rewrite H.
  eexists. reflexivity.
Qed.

(** C5, as the code has it: the server holds no configuration; a webhook
    request is handled with the values [getConfig] reads from the environment
    at that moment, so two moments with the same five values (and the same
    clock reading) handle a request alike, and the values are those of the
    construction when the environment has not changed since. *)
Theorem config_read_at_request (w0 : World) (a : Application) :
  outcome (createServer w0) = Normal a ->
  forall (w1 w2 : World) (inc : Incoming),
    route inc = PostWebhook ->
    getConfig w1 = getConfig w2 ->
    now w1 = now w2 ->
    a w1 inc = a w2 inc.
Proof.
  unfold createServer. rewrite outcome_bind.
  destruct (outcome (validateConfig w0)); [| discriminate].
  cbn [outcome ret snd]. intros [= <-] w1 w2 inc Hroute Hconfig Hnow.
  unfold app. rewrite Hroute.
  destruct (json inc) as [| raw payload | err]; try now apply handleWebhook_config.
  unfold log_error, logger, createLogger. now rewrite Hnow.
Qed.

Lemma config_read_at_request_witness :
  let w := withEnv (<["npm_package_version" := "1.0.0"]> testEnv) testWorld in
  let inc := incoming PostWebhook (signedPush "test-secret" validPayload) in
  outcome (createServer testWorld) = Normal app /\
  getConfig w = getConfig testWorld /\
  app w inc = app testWorld inc.
Proof.
  intros w inc.
  assert (outcome (createServer testWorld) = Normal app) as Hc
    by (apply createServer_outcome; vm_compute; reflexivity).
  assert (getConfig w = getConfig testWorld) as Hg by (vm_compute; reflexivity).
  split; [exact Hc |]. split; [exact Hg |].
  apply (config_read_at_request testWorld app Hc w testWorld inc); [| exact Hg |]; reflexivity.
Defined.

(** C5 as stated fails: after ALLOWED_BRANCHES is changed to [develop] the
    server created under [main,master] deploys a push to develop, which the
    configuration of its construction would have ignored. *)
Lemma later_environment_is_used :
  let w := withEnv (<["ALLOWED_BRANCHES" := "develop"]> testEnv) testWorld in
  let inc := incoming PostWebhook
               (signedPush "test-secret" (withRef (Some "refs/heads/develop") validPayload)) in
  ~ HandlesWithSnapshot testWorld w inc /\
  spawned (trace (app w inc)) = ["cd /test/project && echo " +:+ quoted "test deploy"] /\
  spawned (trace (app (withConfigOf testWorld w) inc)) = [].
Proof.
  cbv zeta. split; [| split; vm_compute; reflexivity].
  intros H. specialize (H app).
  assert (outcome (createServer testWorld) = Normal app) as Hc
    by (apply createServer_outcome; vm_compute; reflexivity).
  specialize (H Hc).
  match type of H with
  | ?here = ?there =>
      assert (spawned (trace here) <> spawned (trace there)) as N
        by (vm_compute; discriminate)
  end.
  apply N. exact (f_equal (fun m => spawned (trace m)) H).
Qed.

(** ** What a deployment logs *)

(** C8, as the code has it: after a successful deployment stdout, and stderr
    when it is not empty, are logged only if detailed logs are enabled; a
    failed deployment is logged whatever the verbosity, by one error line that
    carries the error's message (a fixed text when what was thrown is not an
    error); the captured stderr goes into the result and is not logged. *)
Theorem deployment_logging (w : World) (config : Config) :
  (forall out err,
     loggedArgs (trace (executeDeployment_settle w config (Resolved out err)))
     = if enableDetailedLogs config
       then out :: (if truthy (Some err) then [err] else [])
       else []) /\
  (forall message out err,
     let run := executeDeployment_settle w config (RejectedError message out err) in
     errorLines (trace run)
       = [Console LError (now w +:+ " [WEBHOOK] ❌ ❌ デプロイに失敗しました:") [message]] /\
     loggedArgs (trace run) = [message] /\
     outcome run = Normal {| success := false; stdout := out; stderr := err;
                             error := Some message |}) /\
  (let run := executeDeployment_settle w config RejectedOther in
   errorLines (trace run)
     = [Console LError (now w +:+ " [WEBHOOK] ❌ ❌ デプロイに失敗しました:")
          ["不明なデプロイエラー"]] /\
   loggedArgs (trace run) = ["不明なデプロイエラー"]).
Proof.
  split; [| split].
  - intros out err. unfold executeDeployment_settle.
    destruct (enableDetailedLogs config); [destruct (truthy (Some err)) |]; reflexivity.
  - intros message out err. repeat split.
  - repeat split.
Qed.

(** C8 as stated fails on the failure of the repository's own test: the error
    line shows the message, the captured stderr appears nowhere in it. *)
Lemma failure_log_without_stderr :
  ~ FailureLogShowsStderr testWorld (getConfig testWorld) "デプロイ失敗" (Some "") "エラー詳細".
Proof.
  intros [e [Hin Hm]].
  change (In e [Console LError
                  (now testWorld +:+ " [WEBHOOK] ❌ ❌ デプロイに失敗しました:")
                  ["デプロイ失敗"]]) in Hin.
  destruct Hin as [<- | []].
  match type of Hm with
  | ?shown = true => assert (shown = false) as F by (vm_compute; reflexivity)
  end.
  congruence.
Qed.

(** ** The scenarios of the repository's tests *)

Example develop_is_ignored :
  let req := signedPush "test-secret" (withRef (Some "refs/heads/develop") validPayload) in
  responses (trace (handleWebhook testWorld req))
    = [(200%Z, [("message", "ブランチ develop へのプッシュを無視しました")])] /\
  spawned (trace (handleWebhook testWorld req)) = [].
Proof. vm_compute. split; reflexivity. Qed.

Example zero_signature_is_rejected :
  let raw := bytes_of (stringify validPayload) in
  let sig := "sha256=0000000000000000000000000000000000000000000000000000000000000000" in
  let req := {| headers := requestHeaders (Some sig) (Some "push");
                rawBody := Some raw; body := validPayload |} in
  responses (trace (app testWorld (incoming PostWebhook req)))
    = [(403%Z, [("error", "無効な署名です")])].
Proof. vm_compute. reflexivity. Qed.

Example other_event_is_ignored :
  let p := signedPush "test-secret" validPayload in
  let req := {| headers := <["x-github-event" := "issues"]> (headers p);
                rawBody := rawBody p; body := body p |} in
  responses (trace (handleWebhook testWorld req))
    = [(200%Z, [("message", "issues イベントを無視しました")])] /\
  spawned (trace (handleWebhook testWorld req)) = [].
Proof. vm_compute. split; reflexivity. Qed.

(** [replace] removes the first occurrence of the pattern wherever it stands;
    a ref that does not hold it is the branch as it is. *)
Example extractBranch_elsewhere :
  extractBranch "refs/tags/v1" = "refs/tags/v1" /\
  extractBranch "refs/heads/feature/refs/heads/x" = "feature/refs/heads/x" /\
  extractBranch "xrefs/heads/main" = "xmain".
Proof. vm_compute. repeat split. Qed.

(** * Further properties of the module *)

Ltac run_lines :=
  repeat (rewrite ?outcome_bind, ?trace_bind, ?outcome_try_catch, ?trace_try_catch;
          cbn [trace outcome fst snd ret emit throw app consoleLines execs flat_map
               log_info log_warn log_error logger createLogger negb]).

Lemma consoleLines_app (s t : list event) :
  consoleLines (s ++ t) = consoleLines s ++ consoleLines t.
Proof. apply flat_map_app. Qed.

Lemma execs_app (s t : list event) : execs (s ++ t) = execs s ++ execs t.
Proof. apply flat_map_app. Qed.

(** ** The verifier *)

(** X1: with a signature header, a captured body and a secret, the verifier
    never throws and returns true exactly when the header is the string
    ['sha256=' + hex(HMAC-SHA256(secret, rawBody))], whatever bytes the header
    holds. *)
Theorem verifier_decides_equality
    (w : World) (req : WebhookRequest) (sig : string) (raw : Buffer) (k : string) :
  headers req !! "x-hub-signature-256" = Some sig ->
  rawBody req = Some raw ->
  env w !! "WEBHOOK_SECRET" = Some k ->
  (exists b, outcome (verifySignature w req) = Normal b) /\
  (outcome (verifySignature w req) = Normal true <->
   sig = "sha256=" +:+ hex (hmac_sha256 (bytes_of k) raw)).
Proof.
  intros Hsig Hraw Hkey.
  rewrite (verifySignature_outcome w req _ _ _ Hsig Hraw Hkey).
  fold (createSignature raw k). split; [eauto |].
  destruct (String.eqb_spec sig (createSignature raw k)) as [E | N]; split; auto.
  - discriminate.
  - intros E. contradiction.
Qed.

Lemma verifier_decides_equality_witness :
  let raw := bytes_of (stringify validPayload) in
  let sig := "sha256=0000000000000000000000000000000000000000000000000000000000000000" in
  let req := {| headers := requestHeaders (Some sig) (Some "push");
                rawBody := Some raw; body := validPayload |} in
  env testWorld !! "WEBHOOK_SECRET" = Some "test-secret" /\
  (outcome (verifySignature testWorld req) = Normal true <->
   sig = "sha256=" +:+ hex (hmac_sha256 (bytes_of "test-secret") raw)).
Proof.
  intros raw sig req.
  assert (env testWorld !! "WEBHOOK_SECRET" = Some "test-secret") as Hkey
    by (vm_compute; reflexivity).
  split; [exact Hkey |].
  apply (verifier_decides_equality testWorld req sig raw "test-secret");
    [vm_compute; reflexivity | reflexivity | exact Hkey].
Defined.

(** X2: a request without the [x-hub-signature-256] header, or with an empty
    one, does not verify, whatever its body and even without a secret; one
    warning is logged, the answer is 403 and nothing is spawned. *)
Theorem missing_header_rejected (w : World) (req : WebhookRequest) :
  truthy (headers req !! "x-hub-signature-256") = false ->
  verifySignature w req
    = ([Console LWarn (now w +:+ " [WEBHOOK] ⚠️  署名ヘッダーが見つかりません") []],
       Normal false) /\
  responses (trace (handleWebhook w req)) = [(403%Z, [("error", "無効な署名です")])] /\
  spawned (trace (handleWebhook w req)) = [].
Proof.
  intros H.
  assert (verifySignature w req
          = ([Console LWarn (now w +:+ " [WEBHOOK] ⚠️  署名ヘッダーが見つかりません") []],
             Normal false)) as Hv.
  { unfold verifySignature.
    destruct (headers req !! "x-hub-signature-256") as [[| c sig] |];
      [reflexivity | discriminate H | reflexivity]. }
  split; [exact Hv |].
  rewrite handleWebhook_responses, handleWebhook_spawned, Hv. split; reflexivity.
Qed.

Lemma missing_header_rejected_witness :
  let raw := bytes_of (stringify validPayload) in
  let req := {| headers := <["x-hub-signature" := "sha1=0123456789abcdef"]>
                             (requestHeaders None (Some "push"));
                rawBody := Some raw; body := validPayload |} in
  truthy (headers req !! "x-hub-signature-256") = false /\
  responses (trace (handleWebhook testWorld req)) = [(403%Z, [("error", "無効な署名です")])] /\
  spawned (trace (handleWebhook testWorld req)) = [].
Proof.
  intros raw req.
  assert (truthy (headers req !! "x-hub-signature-256") = false) as H
    by (vm_compute; reflexivity).
  split; [exact H |].
  exact (proj2 (missing_header_rejected testWorld req H)).
Defined.

(** X3: when the secret is gone from the environment at the time of a
    request that has a header and a body, building the HMAC throws a
    [TypeError]; the handler catches it, logs it, answers 500 with the generic
    body, which does not carry the error's text, and spawns nothing. *)
Theorem missing_secret_at_request (w : World) (req : WebhookRequest) (raw : Buffer) :
  truthy (headers req !! "x-hub-signature-256") = true ->
  rawBody req = Some raw ->
  env w !! "WEBHOOK_SECRET" = None ->
  exists e,
    outcome (verifySignature w req) = Abrupt e /\
    ename e = "TypeError" /\
    trace (handleWebhook w req)
      = [Console LError (now w +:+ " [WEBHOOK] ❌ Webhook ハンドラーエラー:") [emessage e];
         Send 500 [("error", "内部サーバーエラー")]] /\
    outcome (handleWebhook w req) = Normal tt.
Proof.
  intros Hsig Hraw Hkey.
  assert (verifySignature w req = ([], Abrupt invalidKeyError)) as Hv.
  { unfold verifySignature.
    destruct (headers req !! "x-hub-signature-256") as [[| c sig] |]; try discriminate Hsig.
    rewrite Hraw. cbn [getConfig secret]. rewrite Hkey. reflexivity. }
  exists invalidKeyError. rewrite Hv. split; [reflexivity |]. split; [reflexivity |].
  unfold handleWebhook. rewrite Hv. split; reflexivity.
Qed.

Lemma missing_secret_at_request_witness :
  let w := withEnv (delete "WEBHOOK_SECRET" testEnv) testWorld in
  let req := signedPush "test-secret" validPayload in
  env w !! "WEBHOOK_SECRET" = None /\
  responses (trace (handleWebhook w req)) = [(500%Z, [("error", "内部サーバーエラー")])] /\
  spawned (trace (handleWebhook w req)) = [].
Proof.
  intros w req.
  assert (env w !! "WEBHOOK_SECRET" = None) as Hkey by (vm_compute; reflexivity).
  split; [exact Hkey |].
  destruct (missing_secret_at_request w req (bytes_of (stringify validPayload)))
    as (e & _ & _ & Ht & _); [vm_compute; reflexivity | reflexivity | exact Hkey |].
  rewrite Ht. split; reflexivity.
Defined.

(** X4: the verifier logs nothing when it returns true, and exactly one
    line, a warning or an error, when it returns false. *)
Theorem verifier_logging (w : World) (req : WebhookRequest) :
  (outcome (verifySignature w req) = Normal true ->
   consoleLines (trace (verifySignature w req)) = []) /\
  (outcome (verifySignature w req) = Normal false ->
   exists lv line, consoleLines (trace (verifySignature w req)) = [(lv, line)]
                   /\ lv <> LInfo).
Proof.
  unfold verifySignature, createHmac_hex, timingSafeEqual.
  destruct (headers req !! "x-hub-signature-256") as [[| c sig] |]; run_lines;
    try (split; [discriminate | intros _; do 2 eexists; split; [reflexivity | discriminate]]).
  destruct (rawBody req) as [raw |]; run_lines;
    try (split; [discriminate | intros _; do 2 eexists; split; [reflexivity | discriminate]]).
  destruct (secret (getConfig w)) as [k |]; run_lines; [| split; discriminate].
  destruct (Nat.eqb (String.length _) _); run_lines;
    try (split; [discriminate | intros _; do 2 eexists; split; [reflexivity | discriminate]]).
  destruct (Nat.eqb _ _); run_lines;
    try (split; [discriminate | intros _; do 2 eexists; split; [reflexivity | discriminate]]).
  destruct (Z.eqb _ _); run_lines.
  - split; [reflexivity | discriminate].
  - split; [discriminate | intros _; do 2 eexists; split; [reflexivity | discriminate]].
Qed.

Lemma verifier_logging_witness :
  let req := signedPush "wrong-secret" validPayload in
  outcome (verifySignature testWorld req) = Normal false /\
  exists lv line, consoleLines (trace (verifySignature testWorld req)) = [(lv, line)]
                  /\ lv <> LInfo.
Proof.
  intros req.
  assert (outcome (verifySignature testWorld req) = Normal false) as Hv
    by (vm_compute; reflexivity).
  split; [exact Hv |].
  exact (proj2 (verifier_logging testWorld req) Hv).
Defined.

(** ** The handler *)

(** X5: a verified request whose event is not push, or that has no event
    header, is answered 200 with a message naming the event (the word
    undefined when there is none) and spawns nothing. *)
Theorem other_event_ignored (w : World) (req : WebhookRequest) :
  outcome (verifySignature w req) = Normal true ->
  headers req !! "x-github-event" <> Some "push" ->
  responses (trace (handleWebhook w req))
    = [(200%Z, [("message",
                 interpolate (headers req !! "x-github-event") +:+ " イベントを無視しました")])] /\
  spawned (trace (handleWebhook w req)) = [].
Proof.
  intros Hv He. rewrite handleWebhook_responses, handleWebhook_spawned, Hv.
  destruct (is_push (headers req !! "x-github-event")) eqn:P.
  - apply is_push_true in P. contradiction.
  - split; reflexivity.
Qed.

Lemma other_event_ignored_witness :
  let p := signedPush "test-secret" validPayload in
  let req := {| headers := delete "x-github-event" (headers p);
                rawBody := rawBody p; body := body p |} in
  outcome (verifySignature testWorld req) = Normal true /\
  headers req !! "x-github-event" <> Some "push" /\
  responses (trace (handleWebhook testWorld req))
    = [(200%Z, [("message", "undefined イベントを無視しました")])] /\
  spawned (trace (handleWebhook testWorld req)) = [].
Proof.
  intros p req.
  assert (outcome (verifySignature testWorld req) = Normal true) as Hv
    by (vm_compute; reflexivity).
  assert (headers req !! "x-github-event" = None) as Hn by (vm_compute; reflexivity).
  assert (headers req !! "x-github-event" <> Some "push") as He
    by (rewrite Hn; discriminate).
  split; [exact Hv |]. split; [exact He |].
  pose proof (other_event_ignored testWorld req Hv He) as H.
  rewrite Hn in H. exact H.
Defined.

(** X6: a verified push with a non-empty ref whose branch is not in the
    allowed list is answered 200 with a message naming the branch and spawns
    nothing. *)
Theorem disallowed_branch_ignored (w : World) (req : WebhookRequest) (r : string) :
  outcome (verifySignature w req) = Normal true ->
  headers req !! "x-github-event" = Some "push" ->
  ref (body req) = Some r ->
  r <> "" ->
  ~ In (extractBranch r) (allowedBranches (getConfig w)) ->
  responses (trace (handleWebhook w req))
    = [(200%Z, [("message", "ブランチ " +:+ extractBranch r +:+ " へのプッシュを無視しました")])] /\
  spawned (trace (handleWebhook w req)) = [].
Proof.
  intros Hv He Hr Hne Hnot. rewrite handleWebhook_responses, handleWebhook_spawned, Hv.
  apply is_push_true in He. rewrite He.
  unfold refusedRef, isAllowedBranch. rewrite Hr.
  destruct r as [| c r']; [contradiction |]. cbn [truthy andb].
  destruct (includes _ _) eqn:I; [apply includes_In in I; contradiction |].
  split; reflexivity.
Qed.

Lemma disallowed_branch_ignored_witness :
  let req := signedPush "test-secret" (withRef (Some "refs/heads/feature/test") validPayload) in
  outcome (verifySignature testWorld req) = Normal true /\
  ~ In (extractBranch "refs/heads/feature/test") (allowedBranches (getConfig testWorld)) /\
  responses (trace (handleWebhook testWorld req))
    = [(200%Z, [("message", "ブランチ " +:+ extractBranch "refs/heads/feature/test"
                              +:+ " へのプッシュを無視しました")])] /\
  spawned (trace (handleWebhook testWorld req)) = [].
Proof.
  intros req.
  assert (outcome (verifySignature testWorld req) = Normal true) as Hv
    by (vm_compute; reflexivity).
  assert (~ In (extractBranch "refs/heads/feature/test")
               (allowedBranches (getConfig testWorld))) as Hnot.
  { vm_compute. intros [H | [H | []]]; discriminate H. }
  split; [exact Hv |]. split; [exact Hnot |].
  apply (disallowed_branch_ignored testWorld req "refs/heads/feature/test" Hv);
    [vm_compute; reflexivity | reflexivity | discriminate | exact Hnot].
Defined.

(** X7: whatever the request, the handler does not throw, sends exactly one
    response, with status 200, 403 or 500, and spawns at most one process. *)
Theorem handler_answers_once (w : World) (req : WebhookRequest) :
  outcome (handleWebhook w req) = Normal tt /\
  (exists st b, responses (trace (handleWebhook w req)) = [(st, b)] /\
                (st = 200 \/ st = 403 \/ st = 500)%Z) /\
  (length (spawned (trace (handleWebhook w req))) <= 1)%nat.
Proof.
  rewrite handleWebhook_returns, handleWebhook_responses, handleWebhook_spawned.
  split; [reflexivity |].
  destruct (outcome (verifySignature w req)) as [[] | e];
    [destruct (is_push _); [destruct (refusedRef w (body req)) |] | |];
    (split; [do 2 eexists; split; [reflexivity | auto] | cbn; lia]).
Qed.

(** ** The signature of the test utilities *)

Lemma hex_digit_lower (n : Z) : (0 <= n < 16)%Z -> is_lower_hex (hex_digit n) = true.
Proof.
  intros H. unfold is_lower_hex, hex_digit.
  rewrite nat_ascii_embedding by (destruct (Z.ltb_spec n 10); lia).
  apply orb_true_iff. rewrite !andb_true_iff, !Nat.leb_le.
  destruct (Z.ltb_spec n 10); [left | right]; lia.
Qed.

Lemma string_forallb_app (f : ascii -> bool) (a b : string) :
  string_forallb f (a +:+ b) = string_forallb f a && string_forallb f b.
Proof.
  induction a as [| c a IH]; [reflexivity |].
  change (String c a +:+ b) with (String c (a +:+ b)). cbn [string_forallb].
  now rewrite IH, andb_assoc.
Qed.

Lemma Z_of_byte_range (b : byte) : (0 <= Z_of_byte b < 256)%Z.
Proof. unfold Z_of_byte. pose proof (Byte.to_N_bounded b). lia. Qed.

Lemma hex_lower (buf : Buffer) : string_forallb is_lower_hex (hex buf) = true.
Proof.
  induction buf as [| b buf IH]; [reflexivity |].
  cbn [hex]. rewrite string_forallb_app, IH, andb_true_r.
  unfold hex_of_byte. cbn [string_forallb]. pose proof (Z_of_byte_range b) as R.
  rewrite !hex_digit_lower; [reflexivity | |].
  - apply Z.mod_pos_bound. lia.
  - split; [apply Z.div_pos; lia | apply Z.div_lt_upper_bound; lia].
Qed.

(** X8: for every payload and secret, [createSignature] gives the seven
    characters [sha256=] followed by exactly 64 characters of [[a-f0-9]], the
    pattern the repository's test asserts on one input. *)
Theorem createSignature_shape (payload : Buffer) (s : string) :
  exists digest,
    createSignature payload s = "sha256=" +:+ digest /\
    String.length digest = 64%nat /\
    string_forallb is_lower_hex digest = true.
Proof.
  exists (hex (hmac_sha256 (bytes_of s) payload)). split; [reflexivity |]. split.
  - now rewrite hex_length, hmac_sha256_length.
  - apply hex_lower.
Qed.

(** ** The configuration *)

Lemma split_nonempty (sep : ascii) (s : string) : split sep s <> [].
Proof.
  destruct s as [| c s]; cbn [split]; [discriminate |].
  destruct (Ascii.eqb c sep); [discriminate |]. destruct (split sep s); discriminate.
Qed.

Lemma or_default_nonempty (v : option string) (d : string) : d <> "" -> or_default v d <> "".
Proof. intros H. destruct v as [[| c s] |]; cbn; auto; discriminate. Qed.

(** X9: whatever the environment, the deploy command and the list of
    allowed branches are never empty; PROJECT_PATH and DEPLOY_COMMAND fall
    back to the working directory and to the yarn command when unset or
    empty; detailed logs are on only for the exact value [true]. *)
Theorem config_fallbacks (w : World) :
  deployCommand (getConfig w) <> "" /\
  allowedBranches (getConfig w) <> [] /\
  (truthy (env w !! "PROJECT_PATH") = false -> projectPath (getConfig w) = cwd w) /\
  (truthy (env w !! "DEPLOY_COMMAND") = false ->
   deployCommand (getConfig w) = "yarn install && yarn build") /\
  (enableDetailedLogs (getConfig w) = true <-> env w !! "ENABLE_DETAILED_LOGS" = Some "true").
Proof.
  cbn [getConfig deployCommand allowedBranches projectPath enableDetailedLogs].
  split; [apply or_default_nonempty; discriminate |].
  split; [destruct (env w !! "ALLOWED_BRANCHES"); [apply split_nonempty | discriminate] |].
  split; [destruct (env w !! "PROJECT_PATH") as [[| c s] |]; cbn; auto; discriminate |].
  split; [destruct (env w !! "DEPLOY_COMMAND") as [[| c s] |]; cbn; auto; discriminate |].
  destruct (env w !! "ENABLE_DETAILED_LOGS") as [s |]; [| split; discriminate].
  rewrite String.eqb_eq. split; [now intros -> | now intros [= ->]].
Qed.

Lemma config_fallbacks_witness :
  let w := withEnv (<["PROJECT_PATH" := ""]> (<["ENABLE_DETAILED_LOGS" := "TRUE"]> testEnv))
             testWorld in
  truthy (env w !! "PROJECT_PATH") = false /\
  projectPath (getConfig w) = "/srv/webhook" /\
  enableDetailedLogs (getConfig w) <> true.
Proof.
  intros w.
  assert (truthy (env w !! "PROJECT_PATH") = false) as H by (vm_compute; reflexivity).
  destruct (config_fallbacks w) as (_ & _ & Hp & _ & Hl).
  split; [exact H |]. split; [exact (Hp H) |].
  intros E. apply Hl in E. vm_compute in E. discriminate E.
Defined.

Lemma join_split (s : string) : join "," (split "," s) = s.
Proof.
  unfold join. induction s as [| c s IH]; [reflexivity |]. cbn [split].
  destruct (Ascii.eqb_spec c ",") as [-> | N].
  - pose proof (split_nonempty "," s) as NE.
    destruct (split "," s) as [| p ps]; [contradiction |].
    change (String.concat "," ("" :: p :: ps))
      with (String "," (String.concat "," (p :: ps))).
    now rewrite IH.
  - pose proof (split_nonempty "," s) as NE.
    destruct (split "," s) as [| p ps]; [contradiction |].
    destruct ps as [| q qs].
    + cbn [String.concat] in *. now rewrite IH.
    + change (String.concat "," (String c p :: q :: qs))
        with (String c (String.concat "," (p :: q :: qs))).
      now rewrite IH.
Qed.

Lemma split_pieces (s : string) :
  Forall (fun piece => string_forallb not_comma piece = true) (split "," s).
Proof.
  induction s as [| c s IH]; [repeat constructor |]. cbn [split].
  destruct (Ascii.eqb c ",") eqn:E; [constructor; [reflexivity | exact IH] |].
  destruct (split "," s) as [| p ps]; [repeat constructor; cbn; unfold not_comma; now rewrite E |].
  inversion IH as [| ? ? Hp Hps]; subst. constructor; [| exact Hps].
  cbn [string_forallb]. unfold not_comma at 1. now rewrite E, Hp.
Qed.

(** X10: when ALLOWED_BRANCHES is set, the allowed branches are its
    comma-separated pieces, untrimmed: joining them with commas gives the
    variable back, and no allowed branch holds a comma. *)
Theorem allowed_branches_pieces (w : World) (s : string) :
  env w !! "ALLOWED_BRANCHES" = Some s ->
  join "," (allowedBranches (getConfig w)) = s /\
  Forall (fun b => string_forallb not_comma b = true) (allowedBranches (getConfig w)).
Proof.
  intros H. cbn [getConfig allowedBranches]. rewrite H.
  split; [apply join_split | apply split_pieces].
Qed.

Lemma allowed_branches_pieces_witness :
  let w := withEnv (<["ALLOWED_BRANCHES" := "main, master,,staging"]> testEnv) testWorld in
  env w !! "ALLOWED_BRANCHES" = Some "main, master,,staging" /\
  join "," (allowedBranches (getConfig w)) = "main, master,,staging".
Proof.
  intros w.
  assert (env w !! "ALLOWED_BRANCHES" = Some "main, master,,staging") as H
    by (vm_compute; reflexivity).
  split; [exact H |]. exact (proj1 (allowed_branches_pieces w _ H)).
Defined.

(** ** Construction *)

(** X11: [createServer] throws the missing-secret error, before writing
    anything, exactly when WEBHOOK_SECRET is unset or empty; otherwise it
    returns the application after writing four lines: a heading, the project
    path, the deploy command and the allowed branches joined by [', ']. *)
Theorem construction_checks_secret (w : World) :
  (truthy (env w !! "WEBHOOK_SECRET") = false ->
   createServer w = ([], Abrupt missingSecretError)) /\
  (truthy (env w !! "WEBHOOK_SECRET") = true ->
   outcome (createServer w) = Normal app /\
   trace (createServer w)
     = [Console LInfo "📋 設定を読み込みました:" [];
        Console LInfo ("  プロジェクトパス: " +:+ projectPath (getConfig w)) [];
        Console LInfo ("  デプロイコマンド: " +:+ deployCommand (getConfig w)) [];
        Console LInfo ("  許可されたブランチ: " +:+ join ", " (allowedBranches (getConfig w))) []]).
Proof.
  unfold createServer, validateConfig. cbn [getConfig secret].
  split; intros H; rewrite H; [reflexivity |]. split; reflexivity.
Qed.

Lemma construction_checks_secret_witness :
  let w := withEnv (<["WEBHOOK_SECRET" := ""]> testEnv) testWorld in
  truthy (env w !! "WEBHOOK_SECRET") = false /\
  createServer w = ([], Abrupt missingSecretError).
Proof.
  intros w.
  assert (truthy (env w !! "WEBHOOK_SECRET") = false) as H by (vm_compute; reflexivity).
  split; [exact H |]. exact (proj1 (construction_checks_secret w) H).
Defined.

(** X12: what construction writes does not depend on the secret: two
    environments that differ only in a non-empty WEBHOOK_SECRET give the same
    lines. *)
Theorem summary_hides_secret (w : World) (e : gmap string string) (s1 s2 : string) :
  s1 <> "" -> s2 <> "" ->
  trace (createServer (withEnv (<["WEBHOOK_SECRET" := s1]> e) w))
  = trace (createServer (withEnv (<["WEBHOOK_SECRET" := s2]> e) w)).
Proof.
  intros H1 H2. unfold createServer, validateConfig, getConfig.
  cbn [env withEnv cwd secret projectPath deployCommand allowedBranches].
  rewrite !lookup_insert_eq, !lookup_insert_ne by discriminate.
  destruct s1 as [| c1 s1]; [contradiction |]. destruct s2 as [| c2 s2]; [contradiction |].
  reflexivity.
Qed.

Lemma summary_hides_secret_witness :
  trace (createServer (withEnv (<["WEBHOOK_SECRET" := "test-secret"]> testEnv) testWorld))
  = trace (createServer (withEnv (<["WEBHOOK_SECRET" := "!@#$%^&*()"]> testEnv) testWorld)).
Proof.
  apply (summary_hides_secret testWorld testEnv "test-secret" "!@#$%^&*()"); discriminate.
Defined.

(** ** Deployment *)

(** X13: [executeDeployment] never throws, however the process settles; it
    spawns exactly one process, with the command it has just logged and a
    limit of 300000 ms; the result reports success exactly when the process
    resolved, and carries an error text otherwise. *)
Theorem deployment_runs_once (w w' : World) (r : ExecSettled) :
  exists result,
    outcome (executeDeployment w w' r) = Normal result /\
    (success result = true <-> exists out err, r = Resolved out err) /\
    (success result = false -> error result <> None) /\
    execs (trace (executeDeployment w w' r))
      = [(deployCommandLine (getConfig w), 300000%Z)] /\
    In (Console LInfo (now w +:+ " [WEBHOOK] 実行コマンド: " +:+ deployCommandLine (getConfig w)) [])
       (trace (executeDeployment w w' r)).
Proof.
  destruct r as [out err | message out err |];
    cbv [executeDeployment executeDeployment_start executeDeployment_settle
         bind ret emit log_info log_warn log_error logger createLogger outcome trace fst snd].
  - destruct (enableDetailedLogs (getConfig w)); [destruct (truthy (Some err)) |];
      (eexists; split; [reflexivity |]; split; [split; eauto |];
       split; [discriminate |]; split; [reflexivity | cbn; auto]).
  - eexists. split; [reflexivity |].
    split; [split; [discriminate | intros (? & ? & [=])] |].
    split; [discriminate |]. split; [reflexivity | cbn; auto].
  - eexists. split; [reflexivity |].
    split; [split; [discriminate | intros (? & ? & [=])] |].
    split; [discriminate |]. split; [reflexivity | cbn; auto].
Qed.

(** X14: the verbosity of a deployment is the one read when it started: the
    environment at the time the process settles plays no part in what is
    logged or returned. *)
Theorem deployment_config_fixed_at_start (w w1 w2 : World) (r : ExecSettled) :
  now w1 = now w2 ->
  executeDeployment w w1 r = executeDeployment w w2 r.
Proof.
  intros Hnow. unfold executeDeployment, executeDeployment_settle.
  unfold log_info, log_warn, log_error, logger, createLogger. rewrite Hnow. reflexivity.
Qed.

Lemma deployment_config_fixed_at_start_witness :
  let later := withEnv (<["ENABLE_DETAILED_LOGS" := "true"]> testEnv) testWorld in
  enableDetailedLogs (getConfig later) = true /\
  enableDetailedLogs (getConfig testWorld) = false /\
  executeDeployment testWorld testWorld (Resolved "built" "warning: slow")
  = executeDeployment testWorld later (Resolved "built" "warning: slow").
Proof.
  intros later. split; [vm_compute; reflexivity |]. split; [vm_compute; reflexivity |].
  apply (deployment_config_fixed_at_start testWorld testWorld later). reflexivity.
Defined.

(** ** The application *)

(** X15: the application never throws and answers every request exactly
    once, with status 200, 400, 403, 404 or 500. *)
Theorem app_answers_once (w : World) (inc : Incoming) :
  outcome (app w inc) = Normal tt /\
  exists st b, responses (trace (app w inc)) = [(st, b)] /\
               (st = 200 \/ st = 400 \/ st = 403 \/ st = 404 \/ st = 500)%Z.
Proof.
  unfold app.
  destruct (json inc) as [| raw payload | err].
  - destruct (route inc);
      try (split; [reflexivity | do 2 eexists; split; [reflexivity | auto 6]]).
    rewrite handleWebhook_returns. split; [reflexivity |].
    rewrite handleWebhook_responses.
    destruct (outcome (verifySignature w _)) as [[] | e];
      [destruct (is_push _); [destruct (refusedRef w _) |] | |];
      (do 2 eexists; split; [reflexivity | auto 6]).
  - destruct (route inc);
      try (split; [reflexivity | do 2 eexists; split; [reflexivity | auto 6]]).
    rewrite handleWebhook_returns. split; [reflexivity |].
    rewrite handleWebhook_responses.
    destruct (outcome (verifySignature w _)) as [[] | e];
      [destruct (is_push _); [destruct (refusedRef w _) |] | |];
      (do 2 eexists; split; [reflexivity | auto 6]).
  - destruct (isJsonSyntaxError err);
      (split; [reflexivity | do 2 eexists; split; [reflexivity | auto 6]]).
Qed.

(** X16: only the webhook route can start a deployment: a request routed to
    the health check, to the root or to no route spawns nothing, whatever its
    headers and body. *)
Theorem other_routes_never_deploy (w : World) (inc : Incoming) :
  route inc <> PostWebhook ->
  spawned (trace (app w inc)) = [].
Proof.
  intros H. unfold app.
  destruct (json inc) as [| raw payload | err];
    [destruct (route inc); try reflexivity; contradiction
    | destruct (route inc); try reflexivity; contradiction |].
  destruct (isJsonSyntaxError err); reflexivity.
Qed.

Lemma other_routes_never_deploy_witness :
  let inc := incoming NoRoute (signedPush "test-secret" validPayload) in
  route inc <> PostWebhook /\ spawned (trace (app testWorld inc)) = [].
Proof.
  intros inc.
  assert (route inc <> PostWebhook) as H by discriminate.
  split; [exact H |]. exact (other_routes_never_deploy testWorld inc H).
Defined.

(** X17: an error of the JSON middleware that is not a parse failure (a
    body over the limit, say) is not answered 400: it is logged and answered
    500 with the generic body, on every route, and the error's message is not
    sent. *)
Theorem other_middleware_error_500 (w : World) (inc : Incoming) (err : JsError) :
  json inc = Failed err ->
  isJsonSyntaxError err = false ->
  trace (app w inc)
    = [Console LError (now w +:+ " [WEBHOOK] ❌ 未処理エラー:") [emessage err];
       Send 500 [("error", "内部サーバーエラー")]].
Proof.
  intros Hj He. unfold app. rewrite Hj, He. reflexivity.
Qed.

Lemma other_middleware_error_500_witness :
  let err := {| ename := "PayloadTooLargeError";
                emessage := "request entity too large";
                ehas_body := false |} in
  let inc := {| route := PostWebhook;
                in_headers := requestHeaders None (Some "push");
                json := Failed err |} in
  responses (trace (app testWorld inc)) = [(500%Z, [("error", "内部サーバーエラー")])].
Proof.
  intros err inc.
  rewrite (other_middleware_error_500 testWorld inc err eq_refl eq_refl). reflexivity.
Defined.

(** ** Branch extraction on other refs *)

Lemma replace_absent (pat rep s : string) :
  String.index 0 pat s = None -> replace pat rep s = s.
Proof.
  induction s as [| c s IH]; intros H.
  - cbn [replace]. destruct pat; [discriminate H | reflexivity].
  - rewrite replace_unfold. cbn [String.index] in H.
    destruct (String.prefix pat (String c s)); [discriminate H |].
    destruct (String.index 0 pat s); [discriminate H |]. now rewrite IH.
Qed.

(** X18: a ref in which ['refs/heads/'] does not occur (a tag ref, a bare
    branch name) is taken as the branch unchanged, so it is allowed only when
    the whole ref is listed. *)
Theorem ref_without_heads_unchanged (w : World) (r : string) :
  String.index 0 "refs/heads/" r = None ->
  extractBranch r = r /\
  (isAllowedBranch w r = true <-> In r (allowedBranches (getConfig w))).
Proof.
  intros H. assert (extractBranch r = r) as E by (apply replace_absent; exact H).
  split; [exact E |]. unfold isAllowedBranch. rewrite E. apply includes_In.
Qed.

Lemma ref_without_heads_unchanged_witness :
  String.index 0 "refs/heads/" "refs/tags/main" = None /\
  extractBranch "refs/tags/main" = "refs/tags/main" /\
  isAllowedBranch testWorld "refs/tags/main" <> true.
Proof.
  assert (String.index 0 "refs/heads/" "refs/tags/main" = None) as H
    by (vm_compute; reflexivity).
  destruct (ref_without_heads_unchanged testWorld "refs/tags/main" H) as [E A].
  split; [exact H |]. split; [exact E |].
  intros T. apply A in T. vm_compute in T. destruct T as [T | [T | []]]; discriminate T.
Defined.

(** X19: a webhook request the JSON middleware left alone (no body, or a
    content type that is not JSON) has no raw body, so it is answered 403 and
    spawns nothing, even when its signature header is the right one for the
    bytes that were sent. *)
Theorem unparsed_webhook_rejected (w : World) (inc : Incoming) :
  json inc = Skipped ->
  route inc = PostWebhook ->
  responses (trace (app w inc)) = [(403%Z, [("error", "無効な署名です")])] /\
  spawned (trace (app w inc)) = [].
Proof.
  intros Hj Hr. unfold app. rewrite Hj, Hr.
  rewrite handleWebhook_responses, handleWebhook_spawned.
  assert (forall req, rawBody req = None -> outcome (verifySignature w req) = Normal false)
    as Hv.
  { intros req Hraw. unfold verifySignature. rewrite Hraw.
    destruct (headers req !! "x-hub-signature-256") as [[| c sig] |]; run; reflexivity. }
  rewrite Hv by reflexivity. split; reflexivity.
Qed.

Lemma unparsed_webhook_rejected_witness :
  let sent := bytes_of (stringify validPayload) in
  let inc := {| route := PostWebhook;
                in_headers := requestHeaders (Some (createSignature sent "test-secret"))
                                (Some "push");
                json := Skipped |} in
  responses (trace (app testWorld inc)) = [(403%Z, [("error", "無効な署名です")])] /\
  spawned (trace (app testWorld inc)) = [].
Proof.
  intros sent inc. apply (unparsed_webhook_rejected testWorld inc); reflexivity.
Defined.
